(** * SAFRS: a shallow embedding of [safrs/_api.py] and [safrs/base.py]

    The development follows the two source files:
    - [Py]: the Python primitives the code relies on (string methods,
      truthiness, [str]);
    - [Api]: [_api.py] -- operation ids, resource methods, the swagger part
      and the method-disabling part of [add_resource], and
      [http_method_decorator];
    - [SAFRSBase]: [base.py] -- permissions, jsonapi attributes,
      (de)serialisation, [_s_post], [_s_patch], [_s_get_related] and
      [_s_jsonapi_encode].

    Python [str] values are modelled as [string]; a character stands for a
    code point below 256. *)

From Stdlib Require Import Ascii String ZArith.
From stdpp Require Import base option list gmap strings fin_maps pretty.

Set Warnings "-clear-no-such-hyp".

(** ** Python primitives *)
Module Py.

Definition code (c : ascii) : N := N_of_ascii c.

Definition between (lo hi : N) (c : ascii) : bool :=
  ((lo <=? code c) && (code c <=? hi))%N.

(** [str.isalnum] on one character, for code points below 256:
    digits, ASCII letters, and the Latin-1 letters and numerics. *)
Definition isalnum (c : ascii) : bool :=
  between 48 57 c || between 65 90 c || between 97 122 c
  || (code c =? 170)%N || between 178 179 c || (code c =? 181)%N
  || between 185 186 c || between 188 190 c
  || between 192 214 c || between 216 246 c || between 248 255 c.

(** ["".join(c for c in s if pred(c))] *)
Fixpoint join_if (pred : ascii -> bool) (s : string) : string :=
  match s with
  | EmptyString => EmptyString
  | String c s' => if pred c then String c (join_if pred s') else join_if pred s'
  end.

(** [all(pred(c) for c in s)] *)
Fixpoint all_chars (pred : ascii -> bool) (s : string) : bool :=
  match s with
  | EmptyString => true
  | String c s' => pred c && all_chars pred s'
  end.

(** ASCII case mapping; the method names compared by the code are ASCII. *)
Definition upper_char (c : ascii) : ascii :=
  if between 97 122 c then ascii_of_N (code c - 32) else c.
Definition lower_char (c : ascii) : ascii :=
  if between 65 90 c then ascii_of_N (code c + 32) else c.

Fixpoint map_chars (f : ascii -> ascii) (s : string) : string :=
  match s with
  | EmptyString => EmptyString
  | String c s' => String (f c) (map_chars f s')
  end.

Definition upper : string -> string := map_chars upper_char.
Definition lower : string -> string := map_chars lower_char.

(** [s.startswith(p)] and [s.endswith(p)] *)
Definition startswith (s p : string) : bool := String.prefix p s.

Fixpoint rev_string (s : string) : string :=
  match s with
  | EmptyString => EmptyString
  | String c s' => rev_string s' +:+ String c EmptyString
  end.

Definition endswith (s p : string) : bool :=
  String.prefix (rev_string p) (rev_string s).

(** [s.lstrip(c)], [s.rstrip(c)] and [s.strip(c)] for a one-character set *)
Fixpoint lstrip (c : ascii) (s : string) : string :=
  match s with
  | String d s' => if Ascii.eqb c d then lstrip c s' else s
  | EmptyString => EmptyString
  end.
Definition rstrip (c : ascii) (s : string) : string :=
  rev_string (lstrip c (rev_string s)).
Definition strip (c : ascii) (s : string) : string := rstrip c (lstrip c s).

(** [s.split(sep)] for a one-character separator: never empty, the pieces
    hold no separator. *)
Fixpoint split (sep : ascii) (s : string) : list string :=
  match s with
  | EmptyString => [EmptyString]
  | String c s' =>
      if Ascii.eqb c sep then EmptyString :: split sep s'
      else match split sep s' with
           | [] => [String c EmptyString]
           | piece :: rest => String c piece :: rest
           end
  end.

(** [sep.join(pieces)] *)
Fixpoint join (sep : string) (pieces : list string) : string :=
  match pieces with
  | [] => EmptyString
  | [p] => p
  | p :: rest => p +:+ sep +:+ join sep rest
  end.

(** [x in l] for a list of strings *)
Definition contains (l : list string) (x : string) : bool :=
  bool_decide (x ∈ l).

(** [needle in s] for two strings *)
Fixpoint substring_in (needle s : string) : bool :=
  String.prefix needle s ||
  match s with
  | EmptyString => false
  | String _ s' => substring_in needle s'
  end.

(** A [dict] or [OrderedDict] keyed by strings, in insertion order. *)
Abbreviation odict V := (list (string * V)).

Fixpoint od_get {V} (d : odict V) (k : string) : option V :=
  match d with
  | [] => None
  | (k', v) :: d' => if String.eqb k' k then Some v else od_get d' k
  end.

(** [d[k] = v]: replaces in place, or appends a new key. *)
Fixpoint od_set {V} (d : odict V) (k : string) (v : V) : odict V :=
  match d with
  | [] => [(k, v)]
  | (k', v') :: d' =>
      if String.eqb k' k then (k, v) :: d' else (k', v') :: od_set d' k v
  end.

(** [d.pop(k, None)] *)
Fixpoint od_pop {V} (d : odict V) (k : string) : odict V :=
  match d with
  | [] => []
  | (k', v') :: d' =>
      if String.eqb k' k then od_pop d' k else (k', v') :: od_pop d' k
  end.

Definition od_keys {V} (d : odict V) : list string := d.*1.
Definition od_values {V} (d : odict V) : list V := d.*2.

(** The double-quote character, as a string *)
Definition dquote : string := String (ascii_of_N 34) EmptyString.

(** [s.split(sep)[0]] and [s.split(sep)[1:]] *)
Definition first_piece (sep : ascii) (s : string) : string :=
  hd EmptyString (split sep s).
Definition other_pieces (sep : ascii) (s : string) : list string :=
  tl (split sep s).

(** Truthiness of a [str] *)
Definition truthy_str (s : string) : bool :=
  negb (String.eqb s EmptyString).

End Py.

(** ** [_api.py] *)
Module Api.

(** [HTTP_METHODS = ["GET", "POST", "PATCH", "DELETE", "PUT"]] *)
Definition HTTP_METHODS : list string := ["GET"; "POST"; "PATCH"; "DELETE"; "PUT"].

(** *** [Api.get_operation_id]

    [_operation_ids] is a class-level dictionary from stripped summaries
    to counters; it is threaded through explicitly. *)
Definition get_operation_id (_operation_ids : gmap string nat) (summary : string)
  : gmap string nat * string :=
  let summary := Py.join_if Py.isalnum summary in
  let _operation_ids :=
    match _operation_ids !! summary with
    | None => <[summary := 0]> _operation_ids
    | Some n => <[summary := S n]> _operation_ids
    end in
  (_operation_ids, summary +:+ "_" +:+ pretty (default 0 (_operation_ids !! summary))).

(** A sequence of calls, each on the dictionary the previous one left. *)
Fixpoint get_operation_ids (_operation_ids : gmap string nat) (summaries : list string)
  : list string :=
  match summaries with
  | [] => []
  | s :: rest =>
      let '(ids, op) := get_operation_id _operation_ids s in
      op :: get_operation_ids ids rest
  end.

(** The counter the next call for the stripped summary [k] returns. *)
Definition next_counter (ids : gmap string nat) (k : string) : nat :=
  match ids !! k with
  | None => 0
  | Some n => S n
  end.

(** How many of [l] strip to the same key as [s]. *)
Definition earlier_calls (s : string) (l : list string) : nat :=
  length (filter (λ s', Py.join_if Py.isalnum s' = Py.join_if Py.isalnum s) l).

(** *** Swagger objects

    A parameter object: the code reads its ["name"] and ["in"] members and
    compares whole objects. *)
Record parameter := mk_parameter {
  param_name : string;
  param_in : string;
  param_doc : string;
}.

#[export] Instance parameter_eq_dec : EqDecision parameter.
Proof. solve_decision. Defined.

(** An operation object (a non-empty dictionary).  For ["summary"] the
    model keeps apart a missing key ([None]), the value [None]
    ([Some None]) and a string. *)
Record operation := mk_operation {
  summary : option (option string);
  collection_summary : option string;
  parameters : option (list parameter);
  operationId : option string;
  description : option string;
}.

(** A path item: method name (lower case) to operation. *)
Definition path_item_object := Py.odict operation.

(** A view method of a resource: the swagger operation its decorator left
    on it ([__swagger_operation_object], as returned by
    [Extractor.extract]) and the summary [parse_method_doc] finds; or the
    [lambda] that [add_resource] installs. *)
Inductive handler :=
| View (swagger_operation : option operation) (doc_summary : string)
| MethodNotAllowed.

(** [lambda x: ({}, HTTPStatus.METHOD_NOT_ALLOWED)], a function of the
    resource instance alone: the response body (an empty dictionary, as its
    list of items) and the status. *)
Definition METHOD_NOT_ALLOWED : Z := 405.
Definition call_MethodNotAllowed {X : Type} (x : X) : list (string * string) * Z :=
  ([], METHOD_NOT_ALLOWED).

(** A resource class.  [SAFRSObject_http_methods] is [None] when
    evaluating [resource.SAFRSObject.http_methods] raises. *)
Record resource := mk_resource {
  methods : list string;
  SAFRSObject_http_methods : option (list string);
  attrs : gmap string handler;
  get_swagger_include : parameter;
  get_swagger_fields : parameter;
  get_swagger_sort : parameter;
  get_swagger_filters : list parameter;
}.

Definition setattr (r : resource) (name : string) (h : handler) : resource :=
  {| methods := methods r;
     SAFRSObject_http_methods := SAFRSObject_http_methods r;
     attrs := <[name := h]> (attrs r);
     get_swagger_include := get_swagger_include r;
     get_swagger_fields := get_swagger_fields r;
     get_swagger_sort := get_swagger_sort r;
     get_swagger_filters := get_swagger_filters r |}.

(** *** [Api.get_resource_methods] *)
Definition get_resource_methods (r : resource) (ordered_methods : list string)
  : list string :=
  let om :=
    match SAFRSObject_http_methods r with
    | Some http_methods =>
        Py.upper <$> filter (λ m, Py.upper m ∈ ordered_methods) http_methods
    | None => ordered_methods
    end in
  Py.lower <$> filter (λ m, m ∈ methods r ∧ Py.upper m ∈ om) ordered_methods.

(** *** [Api.add_resource]

    What the function takes from outside this file: [get_config], the
    swagger library's [extract_swagger_path] and
    [validate_path_item_object], and [default_paging_parameters]. *)
Record environment := mk_environment {
  OBJECT_ID_SUFFIX : string;
  extract_swagger_path : string → string;
  validate_path_item_object : path_item_object → bool;
  default_paging_parameters : list parameter;
}.

(** The keyword arguments the function pops or reads. *)
Record kwargs := mk_kwargs {
  kw_methods : option (list string);
  kw_jsonapi_rpc : bool;
  kw_deprecated : bool;
}.

Inductive exn :=
| ValidationError (message : string)
| TypeError (message : string)
| InvalidPathItem.

(** The state of an [Api]: the operation-id counters, the path-item
    objects created so far (an address is an index) and
    [_swagger_object["paths"]], which maps a swagger url to the address of
    a path item.  Several urls may hold the same object. *)
Record api_state := mk_api_state {
  _operation_ids : gmap string nat;
  objects : list path_item_object;
  paths : gmap string nat;
}.

Definition initial_api : api_state :=
  {| _operation_ids := ∅; objects := []; paths := ∅ |}.

(** [_swagger_object["paths"][url]], dereferenced. *)
Definition swagger_path (st : api_state) (url : string) : option path_item_object :=
  a ← paths st !! url; objects st !! a.

(** [summary.split("<br/>")[0]]: the text before the first separator. *)
Fixpoint before (sep s : string) : string :=
  if String.prefix sep s then EmptyString
  else match s with
       | EmptyString => EmptyString
       | String c s' => String c (before sep s')
       end.

(** Lines 273-296: the operations of the resource's documented methods. *)
Definition collect_operations (r : resource) (kw : kwargs) : path_item_object :=
  let resource_methods := default HTTP_METHODS (kw_methods kw) in
  foldl (λ (path_item : path_item_object) method,
    if kw_deprecated kw then path_item
    else if negb (Py.contains resource_methods (Py.upper method)) then path_item
    else match attrs r !! method with
         | Some (View (Some operation) doc_summary) =>
             let operation :=
               if Py.truthy_str doc_summary
               then {| summary := Some (Some (before "<br/>" doc_summary));
                       collection_summary := collection_summary operation;
                       parameters := parameters operation;
                       operationId := operationId operation;
                       description := description operation |}
               else operation in
             Py.od_set path_item method operation
         | _ => path_item
         end) [] (get_resource_methods r HTTP_METHODS).

(** Lines 327-360: the parameters of one documented method. *)
Definition method_parameters (env : environment) (r : resource) (method swagger_url : string)
    (exposing_instance is_jsonapi_rpc : bool) (declared : list parameter)
  : list parameter :=
  let parameters :=
    foldl (λ (parameters : list parameter) parameter,
      let object_id := "{" +:+ param_name parameter +:+ "}" in
      let parameters :=
        if String.eqb method "get"
        then parameters ++ [get_swagger_include r; get_swagger_fields r]
        else parameters in
      let parameters :=
        if String.eqb method "get" && negb (exposing_instance || is_jsonapi_rpc)
        then parameters ++ default_paging_parameters env
               ++ [get_swagger_sort r] ++ get_swagger_filters r
        else parameters in
      if negb (String.eqb (param_in parameter) "path"
               && negb (Py.substring_in object_id swagger_url))
         && negb (bool_decide (parameter ∈ parameters))
      then parameters ++ [parameter]
      else parameters) [] declared in
  let unique_params :=
    foldl (λ (unique_params : Py.odict parameter) param,
             Py.od_set unique_params (param_name param) param) [] parameters in
  Py.od_values unique_params.

(** Lines 311-372: one method of one url.  The [try] block of lines
    368-372 always ends in its [except: pass] (the format string of line
    369 has a single closing brace, so [str.format] raises) and changes
    nothing. *)
Definition document_method (env : environment) (r : resource) (swagger_url : string)
    (exposing_instance is_jsonapi_rpc : bool)
    (ids : gmap string nat) (path_item : path_item_object) (method : string)
  : gmap string nat * path_item_object * option exn :=
  if String.eqb method "post" && exposing_instance
  then (ids, Py.od_pop path_item method, None)
  else
    match Py.od_get path_item method with
    | None => (ids, path_item, None)
    | Some method_doc =>
        let collection_summary_ :=
          match collection_summary method_doc with
          | Some s => Some s
          | None => default None (summary method_doc)
          end in
        let summary_ :=
          if exposing_instance then summary method_doc else Some collection_summary_ in
        let parameters_ :=
          method_parameters env r method swagger_url exposing_instance is_jsonapi_rpc
            (default [] (parameters method_doc)) in
        match default (Some EmptyString) (summary method_doc) with
        | None => (ids, path_item, Some (TypeError "'NoneType' object is not iterable"))
        | Some s =>
            let '(ids, operation_id) := get_operation_id ids s in
            let method_doc :=
              {| summary := summary_;
                 collection_summary := None;
                 parameters := Some parameters_;
                 operationId := Some operation_id;
                 description := description method_doc |} in
            let path_item := Py.od_set path_item method method_doc in
            if validate_path_item_object env path_item
            then (ids, path_item, None)
            else (ids, path_item, Some InvalidPathItem)
        end
    end.

(** The [for method in ...] loop of one url; stops at the first exception. *)
Fixpoint document_methods (env : environment) (r : resource) (swagger_url : string)
    (exposing_instance is_jsonapi_rpc : bool)
    (ids : gmap string nat) (path_item : path_item_object) (todo : list string)
  : gmap string nat * path_item_object * option exn :=
  match todo with
  | [] => (ids, path_item, None)
  | method :: todo =>
      match document_method env r swagger_url exposing_instance is_jsonapi_rpc
              ids path_item method with
      | (ids, path_item, None) =>
          document_methods env r swagger_url exposing_instance is_jsonapi_rpc
            ids path_item todo
      | stop => stop
      end
  end.

(** [swagger_url.strip("/").endswith(SAFRS_INSTANCE_SUFFIX)] *)
Definition exposing_instance (env : environment) (swagger_url : string) : bool :=
  Py.endswith (Py.strip "/" swagger_url) (OBJECT_ID_SUFFIX env +:+ "}").

(** Lines 302-374: the [for url in urls] loop.  [address] is the address
    of this call's path item; its content is written back to [objects]
    on every path, since the urls registered before an exception already
    hold the object. *)
Fixpoint document_urls (env : environment) (r : resource) (is_jsonapi_rpc : bool)
    (address : nat) (st : api_state) (path_item : path_item_object) (urls : list string)
  : api_state * option exn :=
  let store ids path_item paths :=
    {| _operation_ids := ids;
       objects := <[address := path_item]> (objects st);
       paths := paths |} in
  match urls with
  | [] => (store (_operation_ids st) path_item (paths st), None)
  | url :: urls =>
      if negb (Py.startswith url "/")
      then (store (_operation_ids st) path_item (paths st),
            Some (ValidationError "paths must start with a /"))
      else
        let swagger_url := extract_swagger_path env url in
        match document_methods env r swagger_url (exposing_instance env swagger_url)
                is_jsonapi_rpc (_operation_ids st) path_item
                (get_resource_methods r HTTP_METHODS) with
        | (ids, path_item, None) =>
            document_urls env r is_jsonapi_rpc address
              (store ids path_item (<[swagger_url := address]> (paths st)))
              path_item urls
        | (ids, path_item, Some e) => (store ids path_item (paths st), Some e)
        end
  end.

(** Lines 376-380: disable the methods the SAFRS object did not set. *)
Definition disable_method (r : resource) (http_method : string) : resource :=
  let hm := Py.lower http_method in
  if negb (Py.contains (get_resource_methods r HTTP_METHODS) hm)
  then setattr r hm MethodNotAllowed
  else r.

Definition disable_methods (r : resource) : resource :=
  foldl disable_method r HTTP_METHODS.

(** [add_resource]: the swagger document and the resource class after the
    call, and the exception if one is raised.  The bookkeeping of
    [definitions] and the routing done by the parent class are outside
    this model. *)
Definition add_resource (env : environment) (st : api_state) (r : resource)
    (urls : list string) (kw : kwargs)
  : api_state * resource * option exn :=
  let path_item := collect_operations r kw in
  match path_item with
  | [] => (st, disable_methods r, None)
  | _ =>
      let address := length (objects st) in
      let st := {| _operation_ids := _operation_ids st;
                   objects := objects st ++ [path_item];
                   paths := paths st |} in
      match document_urls env r (kw_jsonapi_rpc kw) address st path_item urls with
      | (st, None) => (st, disable_methods r, None)
      | (st, Some e) => (st, r, Some e)
      end
  end.

(** A sequence of calls of [add_resource] on one [Api]; a call that
    raises leaves the state it reached. *)
Definition add_resources (env : environment) (st : api_state)
    (calls : list (resource * list string * kwargs)) : api_state :=
  foldl (λ st '(r, urls, kw), (add_resource env st r urls kw).1.1) st calls.

(** Every registered url holds an existing path item. *)
Definition paths_allocated (st : api_state) : Prop :=
  ∀ url a, paths st !! url = Some a → a < length (objects st).

(** No instance path of the swagger document has a [post] operation. *)
Definition no_post_on_instances (env : environment) (st : api_state) : Prop :=
  ∀ swagger_url path_item,
    swagger_path st swagger_url = Some path_item →
    exposing_instance env swagger_url = true →
    Py.od_get path_item "post" = None.

(** *** [http_method_decorator]

    An exception as the [except] clauses see it: which clause its class
    selects, and its [status_code] and [message] attributes when it has
    them. *)
Inductive exception_class :=
| SafrsError          (* ValidationError, GenericError, NotFoundError *)
| WerkzeugNotFound    (* werkzeug.exceptions.NotFound *)
| OtherException      (* any other subclass of Exception *)
| NotAnException.     (* BaseException only: no clause selects it *)

Record exception := mk_exception {
  exc_class : exception_class;
  exc_status_code : option Z;
  exc_message : option string;
  exc_str : string;
}.

(** Raised by [getattr(exc, name)] and [exc.name] on a missing attribute. *)
Definition AttributeError (name : string) : exception :=
  {| exc_class := OtherException;
     exc_status_code := None;
     exc_message := None;
     exc_str := "object has no attribute '" +:+ name +:+ "'" |}.

(** How a call of the wrapper ends. *)
Inductive outcome (R : Type) :=
| Returns (result : R)
| Aborts (status_code : Z) (detail : string)
| Raises (exc : exception).
Arguments Returns {R} result.
Arguments Aborts {R} status_code detail.
Arguments Raises {R} exc.

Section http_method_decorator.
(** The database session [safrs.DB.session] with its two operations, and
    whether the effective log level is above [DEBUG]. *)
Context {session R : Type}.
Variable commit : session → session * option exception.
Variable rollback : session → session.
Variable logging_disabled : bool.

(** Lines 485-488 *)
Definition rollback_and_abort (s : session) (status_code : Z) (message : string)
  : session * outcome R :=
  (rollback s, Aborts status_code message).

(** The [except] clauses, lines 467-483, followed by lines 485-488. *)
Definition handle_exception (s : session) (exc : exception) : session * outcome R :=
  match exc_class exc with
  | SafrsError =>
      match exc_status_code exc with
      | None => (s, Raises (AttributeError "status_code"))
      | Some status_code =>
          match exc_message exc with
          | None => (s, Raises (AttributeError "message"))
          | Some message => rollback_and_abort s status_code message
          end
      end
  | WerkzeugNotFound => rollback_and_abort s 404 "Not Found"
  | OtherException =>
      let status_code := default 500%Z (exc_status_code exc) in
      match exc_message exc with
      | None => (s, Raises (AttributeError "message"))
      | Some _ =>
          let message :=
            if logging_disabled then "Logging Disabled" else exc_str exc in
          rollback_and_abort s status_code message
      end
  | NotAnException => (s, Raises exc)
  end.

(** [method_wrapper], for a handler [fun_] that maps the session before
    the call to the session after it and its result or exception. *)
Definition http_method_decorator (fun_ : session → session * (R + exception))
    (s : session) : session * outcome R :=
  match fun_ s with
  | (s, inl result) =>
      match commit s with
      | (s, None) => (s, Returns result)
      | (s, Some exc) => handle_exception s exc
      end
  | (s, inr exc) => handle_exception s exc
  end.
End http_method_decorator.

(** A session with a committed and a pending state. *)
Record db_session (D : Type) := mk_session { committed : D; pending : D }.
Arguments mk_session {D} committed pending.
Arguments committed {D} _.
Arguments pending {D} _.

Definition db_commit {D} (s : db_session D) : db_session D * option exception :=
  ({| committed := pending s; pending := pending s |}, None).
Definition db_rollback {D} (s : db_session D) : db_session D :=
  {| committed := committed s; pending := committed s |}.

End Api.

(** ** [base.py] *)
Module SAFRSBase.

(** The exceptions the modelled methods raise or let through. *)
Inductive exn :=
| ValidationError (message : string)
| GenericError (message : string) (status_code : Z)
| KeyError (key : string)
| AttributeError (name : string)
| RuntimeError (message : string)
| RecursionError.

Inductive res (A : Type) :=
| Ok (a : A)
| Raise (e : exn).
Arguments Ok {A} a.
Arguments Raise {A} e.

#[export] Instance res_ret : MRet res := @Ok.
#[export] Instance res_bind : MBind res :=
  λ A B f m, match m with Ok a => f a | Raise e => Raise e end.

(** A list comprehension with a condition that may raise. *)
Fixpoint filterM {A} (f : A → res bool) (l : list A) : res (list A) :=
  match l with
  | [] => Ok []
  | x :: l =>
      b ← f x;
      l' ← filterM f l;
      Ok (if b : bool then x :: l' else l')
  end.

(** A [for] loop whose body may raise. *)
Fixpoint foldlM {A B} (f : A → B → res A) (a : A) (l : list B) : res A :=
  match l with
  | [] => Ok a
  | x :: l => a ← f a x; foldlM f a l
  end.

(** Attribute values: the JSON scalars, and everything else as an opaque
    object. *)
Inductive value :=
| VNone
| VBool (b : bool)
| VInt (z : Z)
| VStr (s : string)
| VObject (handle : nat).

#[export] Instance value_eq_dec : EqDecision value.
Proof. solve_decision. Defined.

(** *** The class: what the methods read from the ORM mapper, the class
    dictionary and the class attributes *)
Inductive direction := ONETOMANY | MANYTOONE | MANYTOMANY.

#[export] Instance direction_eq_dec : EqDecision direction.
Proof. solve_decision. Defined.

(** [rel_target_s_expose] is [getattr(rel.mapper.class_, "_s_expose", False)],
    [rel_expose] is [getattr(rel, "expose", True)]. *)
Record relationship := mk_relationship {
  rel_key : string;
  rel_direction : direction;
  rel_target_s_expose : bool;
  rel_expose : bool;
}.

(** [col_expose] is [getattr(column, "expose", True)], [col_permissions] is
    [getattr(column, "permissions", "rw")]. *)
Record column := mk_column {
  col_name : string;
  col_expose : bool;
  col_permissions : string;
}.

(** A value of [cls.__dict__]: its [name] attribute if it has one, whether
    it is a [jsonapi_attr], and the setter of a [jsonapi_attr] ([fset]) as
    a function on the instance's attribute values. *)
Record member := mk_member {
  member_name : option string;
  is_jsonapi_attr : bool;
  fset : option (gmap string value → value → gmap string value);
}.

(** A mapped class.  [class_dict] is [cls.__dict__] in its order, as
    [colname_to_attrname] finds it on its first call; [id_type_column_names]
    is [cls.id_type.column_names]. *)
Record class := mk_class {
  class_name : string;
  exclude_attrs : list string;
  exclude_rels : list string;
  supports_includes : bool;
  allow_client_generated_ids : bool;
  mapper_relationships : list relationship;
  mapper_columns : list column;
  class_dict : list (string * member);
  id_type_column_names : list string;
}.

(** [cls.__dict__.get(name, None)] *)
Definition class_dict_get (cls : class) (name : string) : option member :=
  Py.od_get (class_dict cls) name.

(** *** [colname_to_attrname]: the lookup table [_col_attr_name_map] *)
Definition _col_attr_name_map (cls : class) : gmap string string :=
  foldl (λ (m : gmap string string) '(attr_name, attr_val),
    if Py.startswith attr_name "__" && Py.endswith attr_name "__" then m
    else
      let _col_name := default attr_name (member_name attr_val) in
      let attr_name := if String.eqb attr_name "type" then "Type" else attr_name in
      <[_col_name := attr_name]> m) ∅ (class_dict cls).

Definition colname_to_attrname (cls : class) (col_name : string) : res string :=
  match _col_attr_name_map cls !! col_name with
  | Some attr_name => Ok attr_name
  | None => Raise (KeyError col_name)
  end.

(** *** [_s_check_perm] (class level; the instance level calls it) *)

(** Lines 397-411: [Some b] stands for [return b], [None] for leaving the
    loop at its end. *)
Fixpoint check_perm_relationships (cls : class) (property_name : string)
    (rels : list relationship) : option bool :=
  match rels with
  | [] => None
  | rel :: rels =>
      if negb (supports_includes cls) then check_perm_relationships cls property_name rels
      else if negb (String.eqb (rel_key rel) property_name)
      then check_perm_relationships cls property_name rels
      else if Py.contains (exclude_rels cls) (rel_key rel) then Some false
      else if negb (rel_target_s_expose rel) then Some false
      else if negb (rel_expose rel) then Some false
      else Some true
  end.

(** Lines 413-419 *)
Fixpoint check_perm_columns (cls : class) (property_name permission : string)
    (columns : list column) : res (option bool) :=
  match columns with
  | [] => Ok None
  | column :: columns =>
      attr_name ← colname_to_attrname cls (col_name column);
      if negb (String.eqb attr_name property_name)
      then check_perm_columns cls property_name permission columns
      else if col_expose column && Py.substring_in permission (col_permissions column)
      then Ok (Some true)
      else Ok (Some false)
  end.

Definition _s_check_perm (cls : class) (property_name permission : string) : res bool :=
  if Py.startswith property_name "_" then Ok false
  else if Py.contains (exclude_attrs cls) property_name then Ok false
  else
    match check_perm_relationships cls property_name (mapper_relationships cls) with
    | Some b => Ok b
    | None =>
        found ← check_perm_columns cls property_name permission (mapper_columns cls);
        match found with
        | Some b => Ok b
        | None =>
            if from_option is_jsonapi_attr false (class_dict_get cls property_name)
            then Ok true
            else Raise (ValidationError ("Invalid property " +:+ property_name))
        end
    end.

(** *** [_s_columns] and [_s_relationships]

    [_s_columns] is computed once for a class; [has_request_context] is the
    answer of that first evaluation. *)
Definition _s_columns (cls : class) (has_request_context : bool) : res (list column) :=
  if has_request_context
  then filterM (λ c, attr_name ← colname_to_attrname cls (col_name c);
                     _s_check_perm cls attr_name "r") (mapper_columns cls)
  else Ok (mapper_columns cls).

Definition _s_relationships (cls : class) : res (Py.odict relationship) :=
  rels ← filterM (λ rel, _s_check_perm cls (rel_key rel) "r") (mapper_relationships cls);
  Ok (foldl (λ d rel, Py.od_set d (rel_key rel) rel) [] rels).

(** *** [_s_jsonapi_attrs], class level: attribute name to column or
    [jsonapi_attr] *)
Inductive attr :=
| ColumnAttr (c : column)
| JsonapiAttr (m : member).

Definition class_jsonapi_attrs (cls : class) (has_request_context : bool)
  : res (Py.odict attr) :=
  columns ← _s_columns cls has_request_context;
  result ← foldlM (λ (result : Py.odict attr) column,
    attr_name ← colname_to_attrname cls (col_name column);
    permitted ← _s_check_perm cls attr_name "r";
    if negb permitted then Ok result
    else if String.eqb attr_name "type"
    then Ok (Py.od_set result "Type" (ColumnAttr column))
    else if String.eqb attr_name "id" then Ok result
    else
      rels ← _s_relationships cls;
      if Py.contains (Py.od_keys rels) attr_name then Ok result
      else Ok (Py.od_set result attr_name (ColumnAttr column))) [] columns;
  Ok (foldl (λ (result : Py.odict attr) '(attr_name, attr_val),
        if is_jsonapi_attr attr_val
        then Py.od_set result attr_name (JsonapiAttr attr_val)
        else result) result (class_dict cls)).

(** *** The request, the application and the configuration *)

(** What [json.loads(json.dumps(v, cls=json_encoder))] gives. *)
Inductive encoded :=
| Encoded (v : value)
| UnicodeDecodeError
| EncodeError.

(** The JSON scalars come back as they are; for any other object the
    encoder class of the application decides. *)
Definition json_roundtrip (json_encoder : nat → encoded) (v : value) : encoded :=
  match v with
  | VObject handle => json_encoder handle
  | _ => Encoded v
  end.

(** [request.fields], [request.args] and [request.page_limit] *)
Record request := mk_request {
  fields : gmap string (list string);
  args : gmap string string;
  page_limit : nat;
}.

(** [request] is [None] outside a request context, [current_app] is
    [None] outside an application context and holds the application's
    [json_encoder] otherwise. *)
Record context := mk_context {
  ctx_request : option request;
  current_app : option (nat → encoded);
}.

Definition has_request_context (ctx : context) : bool :=
  bool_decide (is_Some (ctx_request ctx)).

(** The encoder of the application, if there is one, raises for no
    object. *)
Definition encoder_never_fails (ctx : context) : Prop :=
  ∀ json_encoder, current_app ctx = Some json_encoder →
    ∀ handle, json_encoder handle ≠ EncodeError.

(** [request.fields.get(name)]: the sparse fieldset of a class, if the
    request has one. *)
Definition requested_fields (ctx : context) (name : string) : option (list string) :=
  req ← ctx_request ctx; fields req !! name.

(** [safrs.SAFRS] constants, [get_config] entries, and the functions of
    other modules: [urllib.parse.urljoin], [attr_parse.parse_attr] and
    [str] on an opaque object. *)
Record config := mk_config {
  INCLUDE_ALL : string;
  DEFAULT_INCLUDED : string;
  ENABLE_RELATIONSHIPS : bool;
  BIG_QUERY_THRESHOLD : nat;
  urljoin : string → string → string;
  parse_attr : column → value → res value;
  object_str : nat → string;
}.

(** [str(v)] *)
Definition str (cfg : config) (v : value) : string :=
  match v with
  | VNone => "None"
  | VBool true => "True"
  | VBool false => "False"
  | VInt z => pretty z
  | VStr s => s
  | VObject handle => object_str cfg handle
  end.

(** *** The instance

    [inst_attrs] holds the values of the instance's attributes; a to-many
    relationship attribute is a list or, with [lazy='dynamic'], a query
    that has [limit]; related instances are object identities.
    [id_type_get_id] is [self.id_type.get_id(self)]. *)
Record rel_query := mk_rel_query {
  rq_items : list nat;
  rq_dynamic : bool;
}.

Record instance := mk_instance {
  inst_class : class;
  inst_attrs : gmap string value;
  inst_to_one : string → option nat;
  inst_to_many : string → rel_query;
  included_list : option (list string);
  _s_url : string;
  id_type_get_id : value;
}.

Definition with_attrs (self : instance) (d : gmap string value) : instance :=
  {| inst_class := inst_class self;
     inst_attrs := d;
     inst_to_one := inst_to_one self;
     inst_to_many := inst_to_many self;
     included_list := included_list self;
     _s_url := _s_url self;
     id_type_get_id := id_type_get_id self |}.

(** The property [Type] of [SAFRSBase] reads and writes [self.type],
    unless the class dictionary has a [Type] of its own: the attribute
    that holds the value of [name]. *)
Definition stored_as (cls : class) (name : string) : string :=
  if String.eqb name "Type" && bool_decide (class_dict_get cls "Type" = None)
  then "type" else name.

(** [getattr(self, name, None)] and [getattr(self, name)] for an
    attribute name *)
Definition lookup_attr (self : instance) (name : string) : option value :=
  inst_attrs self !! stored_as (inst_class self) name.

Definition getattr (self : instance) (name : string) : res value :=
  match lookup_attr self name with
  | Some v => Ok v
  | None => Raise (AttributeError name)
  end.

(** [a == b] on values; a [bool] is the integer 0 or 1, opaque objects
    compare by identity. *)
Definition py_eq (a b : value) : bool :=
  match a, b with
  | VNone, VNone => true
  | VBool x, VBool y => bool_decide (x = y)
  | VBool x, VInt z | VInt z, VBool x => bool_decide (z = if x then 1 else 0)%Z
  | VInt x, VInt y => bool_decide (x = y)
  | VStr x, VStr y => bool_decide (x = y)
  | VObject x, VObject y => bool_decide (x = y)
  | _, _ => false
  end.

(** *** [_s_jsonapi_attrs], instance level, and [to_dict] *)

(** Lines 449-456: the value of one requested field. *)
Definition field_value (self : instance) (ja_attr_names : list string) (attr : string)
  : res value :=
  if Py.contains ja_attr_names attr then
    match lookup_attr self attr with
    | Some attr_val => Ok attr_val
    | None =>
        col_name ← colname_to_attrname (inst_class self) attr;
        getattr self col_name
    end
  else Ok (VStr "").

(** Lines 457-467: store the encoded value. *)
Definition store_field (ctx : context) (result : gmap string value)
    (attr : string) (attr_val : value) : gmap string value :=
  match current_app ctx with
  | Some json_encoder =>
      match json_roundtrip json_encoder attr_val with
      | Encoded v => <[attr := v]> result
      | UnicodeDecodeError => <[attr := VStr ""]> result
      | EncodeError => result
      end
  | None => <[attr := attr_val]> result
  end.

Definition _s_jsonapi_attrs (ctx : context) (self : instance)
  : res (gmap string value) :=
  let cls := inst_class self in
  class_attrs ← class_jsonapi_attrs cls (has_request_context ctx);
  let fields_ := Py.od_keys class_attrs in
  let fields_ :=
    match ctx_request ctx with
    | Some req => default fields_ (fields req !! class_name cls)
    | None => fields_
    end in
  ja_attr_names ← filterM (λ name, _s_check_perm cls name "r") (Py.od_keys class_attrs);
  foldlM (λ result attr,
            attr_val ← field_value self ja_attr_names attr;
            Ok (store_field ctx result attr attr_val)) ∅ fields_.

Definition to_dict (ctx : context) (self : instance) : res (gmap string value) :=
  _s_jsonapi_attrs ctx self.

(** *** [_s_parse_attr_value], [__setattr__] and [_s_patch] *)
Definition _s_parse_attr_value (cfg : config) (ctx : context) (cls : class)
    (attr_name : string) (attr_val : value) : res value :=
  if negb (has_request_context ctx) then Ok attr_val
  else if String.eqb attr_name "id" then Ok attr_val
  else
    class_attrs ← class_jsonapi_attrs cls (has_request_context ctx);
    match Py.od_get class_attrs attr_name with
    | Some (JsonapiAttr _) => Ok attr_val
    | Some (ColumnAttr column) => parse_attr cfg column attr_val
    | None => Raise (ValidationError "Not a column: None")
    end.

(** The setter of the property [Type], lines 1007-1014: it assigns to
    [self.Type] again as long as [self.Type] differs from the value, so it
    ends in a [RecursionError] unless they are equal. *)
Definition Type_setter (self : instance) (value_ : value) : res instance :=
  old ← getattr self "type";
  if negb (py_eq old value_) then Raise RecursionError
  else Ok (with_attrs self (<["type" := value_]> (inst_attrs self))).

(** [setattr(self, attr_name, attr_val)], through [__setattr__]: nothing
    for a [jsonapi_attr] without setter, its setter if it has one, the
    setter of [Type], the plain assignment otherwise.  The attribute of the
    class that line 191 reads is the member of the class dictionary. *)
Definition setattr (self : instance) (attr_name : string) (attr_val : value)
  : res instance :=
  match class_dict_get (inst_class self) attr_name with
  | Some {| is_jsonapi_attr := true; fset := None |} => Ok self
  | Some {| is_jsonapi_attr := true; fset := Some setter |} =>
      Ok (with_attrs self (setter (inst_attrs self) attr_val))
  | Some _ => Ok (with_attrs self (<[attr_name := attr_val]> (inst_attrs self)))
  | None =>
      if String.eqb attr_name "Type" then Type_setter self attr_val
      else Ok (with_attrs self (<[attr_name := attr_val]> (inst_attrs self)))
  end.

(** The setters of the class's [jsonapi_attr]s write their own attribute
    only. *)
Definition setters_local (cls : class) : Prop :=
  ∀ name m setter,
    class_dict_get cls name = Some m → fset m = Some setter →
    ∀ d v n, n ≠ name → setter d v !! n = d !! n.

(** One turn of the loop of [_s_patch]. *)
Definition patch_attribute (cfg : config) (ctx : context) (self : instance)
    (item : string * value) : instance * option exn :=
  let '(attr_name, attr_val) := item in
  let cls := inst_class self in
  match class_jsonapi_attrs cls (has_request_context ctx) with
  | Raise e => (self, Some e)
  | Ok class_attrs =>
      if negb (Py.contains (Py.od_keys class_attrs) attr_name) then (self, None)
      else
        match _s_check_perm cls attr_name "w" with
        | Raise e => (self, Some e)
        | Ok false => (self, None)
        | Ok true =>
            match _s_parse_attr_value cfg ctx cls attr_name attr_val with
            | Raise e => (self, Some e)
            | Ok attr_val =>
                match setattr self attr_name attr_val with
                | Raise e => (self, Some e)
                | Ok self => (self, None)
                end
            end
        end
  end.

(** [_s_patch], called with the keyword arguments [attributes]: the instance after the call, and the
    exception if the loop was left by one. *)
Fixpoint _s_patch (cfg : config) (ctx : context) (self : instance)
    (attributes : Py.odict value) : instance * option exn :=
  match attributes with
  | [] => (self, None)
  | item :: attributes =>
      match patch_attribute cfg ctx self item with
      | (self, None) => _s_patch cfg ctx self attributes
      | stop => stop
      end
  end.

(** *** [_s_post] *)

(** Lines 236-245: the keyword arguments that the class is called with. *)
Definition sanitize (cls : class) (class_attrs : Py.odict attr) (id : value)
    (attributes : Py.odict value) : Py.odict value :=
  let attributes :=
    filter (λ item, item.1 ∈ Py.od_keys class_attrs) attributes in
  if allow_client_generated_ids cls
  then Py.od_set attributes "id" id
  else filter (λ item, item.1 ∉ id_type_column_names cls) attributes.

(** [instantiate] stands for the call of the class followed by lines
    252-264, which add and commit the new instance. *)
Definition _s_post (ctx : context)
    (instantiate : class → Py.odict value → res instance)
    (cls : class) (id : value) (attributes : Py.odict value) : res instance :=
  class_attrs ← class_jsonapi_attrs cls (has_request_context ctx);
  instantiate cls (sanitize cls class_attrs id attributes).

(** *** [jsonapi_id] *)
Definition jsonapi_id (cfg : config) (self : instance) : string :=
  str cfg (id_type_get_id self).

(** *** [Included] and [_s_get_related] *)

(** [Included(instance, included_list)]: the included instance and the
    [included_list] the constructor sets on it. *)
Record Included := mk_Included {
  incl_instance : nat;
  incl_included_list : list string;
}.

Definition Included_init (instance_ : nat) (included_list_ : list (list string)) : Included :=
  {| incl_instance := instance_;
     incl_included_list := Py.join "." <$> included_list_ |}.

Inductive linkage :=
| DataNone
| DataIncluded (item : Included)
| DataList (items : list Included).

Inductive meta_value :=
| MetaStr (s : string)
| MetaInt (n : nat).

(** The members of a relationship object *)
Inductive rel_member :=
| Links (links : Py.odict string)
| Data (data : linkage)
| Meta (meta : Py.odict meta_value).

(** Lines 766-793: a to-many relationship that is included. *)
Definition to_many_data (cfg : config) (limit : nat) (rel_name : string)
    (rel_query : rel_query) (next_included_list : list (list string))
  : Py.odict meta_value * list Included :=
  if negb (ENABLE_RELATIONSHIPS cfg)
  then ([("warning", MetaStr "ENABLE_RELATIONSHIPS set to false in config.py")], [])
  else if rq_dynamic rel_query then
    let count := length (rq_items rel_query) in
    let limited := take limit (rq_items rel_query) in
    let meta :=
      if bool_decide (BIG_QUERY_THRESHOLD cfg ≤ length limited)
      then [("warning",
             MetaStr ("Truncated result for relationship " +:+ Py.dquote +:+ rel_name
                      +:+ Py.dquote +:+ ",consider paginating this request"))]
      else [] in
    (Py.od_set (Py.od_set meta "count" (MetaInt count)) "limit" (MetaInt limit),
     (λ rel_item, Included_init rel_item next_included_list) <$> limited)
  else
    match rq_items rel_query with
    | [] => ([], [])
    | items =>
        ([("count", MetaInt (length items)); ("limit", MetaInt limit)],
         (λ rel_item, Included_init rel_item next_included_list) <$> items)
    end.

(** Lines 750-805: the relationship object of one exposed relationship. *)
Definition relationship_object (cfg : config) (req : request) (self : instance)
    (included_list_ included_rels : list string) (relationship : relationship)
  : Py.odict rel_member :=
  let rel_name := rel_key relationship in
  let data :=
    if bool_decide (rel_direction relationship ∈ [ONETOMANY; MANYTOMANY])
    then DataList [] else DataNone in
  let '(meta, data) :=
    if Py.contains included_rels rel_name || Py.contains included_list_ (INCLUDE_ALL cfg)
    then
      let next_included_list :=
        Py.other_pieces "." <$>
          filter (λ inc_item, Py.startswith inc_item (rel_name +:+ ".")) included_list_ in
      match rel_direction relationship with
      | MANYTOONE =>
          match inst_to_one self rel_name with
          | Some rel_item => ([], DataIncluded (Included_init rel_item next_included_list))
          | None => ([], data)
          end
      | ONETOMANY | MANYTOMANY =>
          let '(meta, items) :=
            to_many_data cfg (page_limit req) rel_name (inst_to_many self rel_name)
              next_included_list in
          (meta, DataList items)
      end
    else ([], data) in
  let rel_link := urljoin cfg (_s_url self) rel_name in
  let rel_data := [("links", Links [("self", rel_link)])] in
  let rel_data := Py.od_set rel_data "data" (Data data) in
  match meta with
  | [] => rel_data
  | _ => Py.od_set rel_data "meta" (Meta meta)
  end.

(** Lines 719-725.  [included_rels] is a [set] in the source; the loop
    raises for the first invalid name it meets, in an order the model
    fixes as the order of first occurrence. *)
Definition check_included_rels (cfg : config) (cls : class) (included_rels : list string)
  : res unit :=
  foldlM (λ _ rel_name,
    if negb (String.eqb rel_name (INCLUDE_ALL cfg)) then
      rels ← _s_relationships cls;
      if negb (Py.contains (Py.od_keys rels) rel_name)
      then Raise (GenericError ("Invalid Relationship '" +:+ rel_name +:+ "'") 400)
      else Ok ()
    else Ok ()) () included_rels.

(** What the check of lines 719-725 accepts. *)
Definition included_rel_known (cfg : config) (rels : Py.odict relationship)
    (rel_name : string) : Prop :=
  rel_name = INCLUDE_ALL cfg ∨ rel_name ∈ Py.od_keys rels.

(** Lines 706-710: the include paths, set by [Included] on the instance
    or taken from the request. *)
Definition get_included_list (cfg : config) (req : request) (self : instance)
  : list string :=
  match included_list self with
  | Some l => l
  | None =>
      let included_csv := default (DEFAULT_INCLUDED cfg) (args req !! "include") in
      filter (λ inc, Py.truthy_str inc = true) (Py.split "," included_csv)
  end.

(** The resource linkage of a relationship: a list for a to-many
    relationship, [None] or one included resource for a to-one
    relationship. *)
Definition linkage_fits (d : direction) (data : linkage) : Prop :=
  match d with
  | MANYTOONE => data = DataNone ∨ ∃ item, data = DataIncluded item
  | ONETOMANY | MANYTOMANY => ∃ items, data = DataList items
  end.

Definition _s_get_related (cfg : config) (ctx : context) (self : instance)
  : res (Py.odict (Py.odict rel_member)) :=
  match ctx_request ctx with
  | None => Raise (RuntimeError "Working outside of request context.")
  | Some req =>
      let included_list_ := get_included_list cfg req self in
      let excluded_csv := default "" (args req !! "exclude") in
      let excluded_list := Py.split "," excluded_csv in
      let included_rels := remove_dups (Py.first_piece "." <$> included_list_) in
      _ ← check_included_rels cfg (inst_class self) included_rels;
      rels ← _s_relationships (inst_class self);
      Ok (foldl (λ relationships '(_, relationship),
                   Py.od_set relationships (rel_key relationship)
                     (relationship_object cfg req self included_list_ included_rels
                        relationship)) [] rels)
  end.

(** *** [_s_jsonapi_encode] *)
Inductive encoded_member :=
| EAttributes (attributes : gmap string value)
| EStr (s : string)
| ELinks (links : Py.odict string)
| ERelationships (relationships : Py.odict (Py.odict rel_member)).

(** [url_for] of line 670 needs an application context; its result is
    not used. *)
Definition _s_jsonapi_encode (cfg : config) (ctx : context) (self : instance)
  : res (Py.odict encoded_member) :=
  match current_app ctx with
  | None => Raise (RuntimeError "Working outside of application context.")
  | Some _ =>
      let self_link := _s_url self in
      attributes ← to_dict ctx self;
      relationships ← _s_get_related cfg ctx self;
      Ok [("attributes", EAttributes attributes);
          ("id", EStr (jsonapi_id cfg self));
          ("links", ELinks [("self", self_link)]);
          ("type", EStr (class_name (inst_class self)));
          ("relationships", ERelationships relationships)]
  end.

End SAFRSBase.

(** ** Sample objects: a [User] model and its resource *)
Module Sample.
Import Api SAFRSBase.

(** *** The resource of [User]: no [put] is configured *)
Definition env : environment :=
  {| OBJECT_ID_SUFFIX := "Id";
     extract_swagger_path := λ url, url;
     validate_path_item_object := λ _, true;
     default_paging_parameters := [] |}.

Definition user_id_param : parameter :=
  {| param_name := "UserId"; param_in := "path"; param_doc := "" |}.

Definition documented (summary_ : string) : handler :=
  View (Some {| summary := None;
                collection_summary := None;
                parameters := Some [user_id_param];
                operationId := None;
                description := None |}) summary_.

Definition query_param (name : string) : parameter :=
  {| param_name := name; param_in := "query"; param_doc := "" |}.

Definition User_API : resource :=
  {| methods := ["GET"; "POST"; "PATCH"; "DELETE"; "PUT"];
     SAFRSObject_http_methods := Some ["get"; "post"; "patch"; "delete"];
     attrs := {[ "get" := documented "Retrieve a User";
                 "post" := documented "Create a User";
                 "patch" := documented "Update a User";
                 "delete" := documented "Delete a User";
                 "put" := View None "" ]};
     get_swagger_include := query_param "include";
     get_swagger_fields := query_param "fields[User]";
     get_swagger_sort := query_param "sort";
     get_swagger_filters := [query_param "filter[name]"] |}.

Definition no_kwargs : kwargs :=
  {| kw_methods := None; kw_jsonapi_rpc := false; kw_deprecated := false |}.

(** The two calls of [expose_object]: the collection, then the instances. *)
Definition expose_User : list (resource * list string * kwargs) :=
  [(User_API, ["/Users/"],
    {| kw_methods := Some ["GET"; "POST"]; kw_jsonapi_rpc := false;
       kw_deprecated := false |});
   (User_API, ["/Users/{UserId}/"], no_kwargs)].

(** *** A handler that inserts a row and then fails with a [KeyError] *)
Definition key_error : exception :=
  {| exc_class := OtherException;
     exc_status_code := None;
     exc_message := None;
     exc_str := "'name'" |}.

Definition failing_post (s : db_session (list string))
  : db_session (list string) * (unit + exception) :=
  ({| committed := committed s; pending := "row" :: pending s |}, inr key_error).

Definition empty_session : db_session (list string) :=
  {| committed := []; pending := [] |}.

(** *** The model [User] *)
Definition plain_column (name : string) : column :=
  {| col_name := name; col_expose := true; col_permissions := "rw" |}.

Definition column_member (name : string) : member :=
  {| member_name := Some name; is_jsonapi_attr := false; fset := None |}.

Definition other_member : member :=
  {| member_name := None; is_jsonapi_attr := false; fset := None |}.

(** A [jsonapi_attr] with a setter that stores the value. *)
Definition nick_attr : member :=
  {| member_name := None;
     is_jsonapi_attr := true;
     fset := Some (λ d v, <["nick" := v]> d) |}.

Definition User : class :=
  {| class_name := "User";
     exclude_attrs := ["secret"];
     exclude_rels := [];
     supports_includes := true;
     allow_client_generated_ids := false;
     mapper_relationships :=
       [ {| rel_key := "books"; rel_direction := ONETOMANY;
            rel_target_s_expose := true; rel_expose := true |};
         {| rel_key := "employer"; rel_direction := MANYTOONE;
            rel_target_s_expose := true; rel_expose := true |} ];
     mapper_columns :=
       [ plain_column "id"; plain_column "name"; plain_column "secret";
         {| col_name := "created"; col_expose := true; col_permissions := "r" |};
         plain_column "photo" ];
     class_dict :=
       [ ("__tablename__", other_member);
         ("id", column_member "id");
         ("name", column_member "name");
         ("secret", column_member "secret");
         ("created", column_member "created");
         ("photo", column_member "photo");
         ("books", other_member);
         ("employer", other_member);
         ("nick", nick_attr) ];
     id_type_column_names := ["id"] |}.

Definition ann : instance :=
  {| inst_class := User;
     inst_attrs := {[ "id" := VInt 1; "name" := VStr "Ann"; "secret" := VStr "s3cr3t";
                      "created" := VStr "2020-01-01"; "photo" := VObject 0;
                      "nick" := VStr "annie" ]};
     inst_to_one := λ _, Some 7;
     inst_to_many := λ _, {| rq_items := [3; 4]; rq_dynamic := false |};
     included_list := None;
     _s_url := "http://localhost/Users/1/";
     id_type_get_id := VInt 1 |}.

Definition cfg : config :=
  {| INCLUDE_ALL := "+all";
     DEFAULT_INCLUDED := "";
     ENABLE_RELATIONSHIPS := true;
     BIG_QUERY_THRESHOLD := 1000;
     urljoin := λ base url, base +:+ url;
     parse_attr := λ _ v, Ok v;
     object_str := λ _, "<object>" |}.

Definition request_with (fields_ : gmap string (list string)) (args_ : gmap string string)
  : request :=
  {| fields := fields_; args := args_; page_limit := 250 |}.

(** An application whose encoder encodes an object as its [str]. *)
Definition ctx_with (req : request) : context :=
  {| ctx_request := Some req;
     current_app := Some (λ handle, Encoded (VStr (object_str cfg handle))) |}.

(** An application whose encoder raises for every object. *)
Definition ctx_strict (req : request) : context :=
  {| ctx_request := Some req; current_app := Some (λ _, EncodeError) |}.

Definition plain_request : request := request_with ∅ ∅.

Definition sparse_request : request :=
  request_with {[ "User" := ["name"; "secret"] ]} ∅.

Definition include_request (include : string) : request :=
  request_with ∅ {[ "include" := include ]}.

(** The class called with the sanitized attributes builds an instance
    that holds them. *)
Definition instantiate (cls : class) (kwargs_ : Py.odict value) : res instance :=
  Ok {| inst_class := cls;
        inst_attrs := list_to_map kwargs_;
        inst_to_one := λ _, None;
        inst_to_many := λ _, {| rq_items := []; rq_dynamic := false |};
        included_list := None;
        _s_url := "";
        id_type_get_id := default VNone (Py.od_get kwargs_ "id") |}.

(** *** A model that sets [supports_includes = False] and has a
    relationship *)
Definition Pet : class :=
  {| class_name := "Pet";
     exclude_attrs := [];
     exclude_rels := [];
     supports_includes := false;
     allow_client_generated_ids := false;
     mapper_relationships :=
       [ {| rel_key := "owner"; rel_direction := MANYTOONE;
            rel_target_s_expose := true; rel_expose := true |} ];
     mapper_columns := [ plain_column "id"; plain_column "name" ];
     class_dict :=
       [ ("__tablename__", other_member);
         ("id", column_member "id");
         ("name", column_member "name");
         ("owner", other_member) ];
     id_type_column_names := ["id"] |}.

Definition rex : instance :=
  {| inst_class := Pet;
     inst_attrs := {[ "id" := VInt 1; "name" := VStr "Rex" ]};
     inst_to_one := λ _, Some 1;
     inst_to_many := λ _, {| rq_items := []; rq_dynamic := false |};
     included_list := None;
     _s_url := "http://localhost/Pets/1/";
     id_type_get_id := VInt 1 |}.

End Sample.

(** * Properties *)

(** ** Python primitives *)
Section py_facts.

Lemma String_eqb_decide (a b : string) : String.eqb a b = bool_decide (a = b).
Proof.
  destruct (String.eqb_spec a b) as [->|Hne].
  - by rewrite bool_decide_eq_true_2.
  - by rewrite bool_decide_eq_false_2.
Qed.

Lemma contains_true (l : list string) (x : string) : Py.contains l x = true ↔ x ∈ l.
Proof. unfold Py.contains. apply bool_decide_eq_true. Qed.

Lemma contains_false (l : list string) (x : string) : Py.contains l x = false ↔ x ∉ l.
Proof. unfold Py.contains. apply bool_decide_eq_false. Qed.

Lemma join_if_all_chars pred s : Py.all_chars pred (Py.join_if pred s) = true.
Proof.
  induction s as [|c s IH]; simpl; [done|].
  destruct (pred c) eqn:Hc; simpl; [by rewrite Hc|done].
Qed.

Lemma isalnum_underscore : Py.isalnum "_" = false.
Proof. reflexivity. Qed.

(** A text of alphanumerics, an underscore and a rest: the text and the
    rest are determined. *)
Lemma underscore_split (s1 s2 d1 d2 : string) :
  Py.all_chars Py.isalnum s1 = true → Py.all_chars Py.isalnum s2 = true →
  s1 +:+ "_" +:+ d1 = s2 +:+ "_" +:+ d2 → s1 = s2 ∧ d1 = d2.
Proof.
  revert s2. induction s1 as [|c s1 IH]; intros [|c2 s2]; simpl; intros H1 H2 Heq.
  - by injection Heq.
  - injection Heq as Hc _. subst c2.
    rewrite isalnum_underscore in H2. done.
  - injection Heq as Hc _. subst c.
    rewrite isalnum_underscore in H1. done.
  - injection Heq as -> Heq.
    apply andb_prop in H1 as [_ H1]. apply andb_prop in H2 as [_ H2].
    destruct (IH s2 H1 H2 Heq) as [-> ->]. done.
Qed.

End py_facts.

(** ** [Api.get_operation_id] *)
Section operation_ids.
Import Api.

Abbreviation key := (Py.join_if Py.isalnum).

Lemma get_operation_id_eq ids s :
  get_operation_id ids s
  = (<[key s := next_counter ids (key s)]> ids,
     key s +:+ "_" +:+ pretty (next_counter ids (key s))).
Proof.
  unfold get_operation_id, next_counter.
  destruct (ids !! key s) as [n|] eqn:E; by rewrite lookup_insert_eq.
Qed.

Lemma next_counter_insert ids k k' :
  next_counter (<[k := next_counter ids k]> ids) k'
  = if decide (k = k') then S (next_counter ids k') else next_counter ids k'.
Proof.
  unfold next_counter at 1. rewrite lookup_insert.
  destruct (decide (k = k')) as [->|]; done.
Qed.

Lemma earlier_calls_cons s s0 l :
  earlier_calls s (s0 :: l)
  = (if decide (key s0 = key s) then 1 else 0) + earlier_calls s l.
Proof.
  unfold earlier_calls. rewrite filter_cons.
  destruct (decide (key s0 = key s)); done.
Qed.

Lemma get_operation_ids_cons ids s rest :
  get_operation_ids ids (s :: rest)
  = (get_operation_id ids s).2 :: get_operation_ids (get_operation_id ids s).1 rest.
Proof. simpl. by destruct (get_operation_id ids s). Qed.

Lemma get_operation_ids_lookup summaries : ∀ ids k s,
  summaries !! k = Some s →
  get_operation_ids ids summaries !! k
  = Some (key s +:+ "_" +:+
          pretty (next_counter ids (key s) + earlier_calls s (take k summaries))).
Proof.
  induction summaries as [|s0 rest IH]; intros ids k s Hk; [done|].
  rewrite get_operation_ids_cons, get_operation_id_eq.
  destruct k as [|k]; simpl in *.
  - injection Hk as ->. by rewrite Nat.add_0_r.
  - rewrite (IH _ _ _ Hk), next_counter_insert, earlier_calls_cons.
    destruct (decide (key s0 = key s)); do 4 f_equal; lia.
Qed.

Lemma get_operation_ids_length summaries : ∀ ids,
  length (get_operation_ids ids summaries) = length summaries.
Proof.
  induction summaries as [|s0 rest IH]; intros ids; [done|].
  rewrite get_operation_ids_cons. simpl. by rewrite IH.
Qed.

Lemma earlier_calls_take_lt (summaries : list string) i j si sj :
  i < j → summaries !! i = Some si → summaries !! j = Some sj →
  key si = key sj →
  earlier_calls si (take i summaries) < earlier_calls sj (take j summaries).
Proof.
  revert i j. induction summaries as [|s0 rest IH]; intros i j Hij Hi Hj Hkey; [done|].
  destruct j as [|j]; [lia|]. destruct i as [|i]; simpl in *.
  - injection Hi as ->. rewrite earlier_calls_cons.
    rewrite decide_True by done. unfold earlier_calls. simpl. lia.
  - rewrite !earlier_calls_cons, Hkey.
    assert (i < j) as Hlt by lia. specialize (IH i j Hlt Hi Hj Hkey). lia.
Qed.

(** C6: the k-th call returns the alphanumeric characters of its
    summary, an underscore and the number of earlier calls with the same
    stripped summary (a counter that starts at 0); the operation ids of
    any sequence of calls are pairwise distinct. *)
Theorem get_operation_id_unique (summaries : list string) :
  get_operation_ids ∅ summaries
  = imap (λ k s, key s +:+ "_" +:+ pretty (earlier_calls s (take k summaries))) summaries
  ∧ NoDup (get_operation_ids ∅ summaries).
Proof.
  assert (∀ k s, summaries !! k = Some s →
    get_operation_ids ∅ summaries !! k
    = Some (key s +:+ "_" +:+ pretty (earlier_calls s (take k summaries)))) as Hlook.
  { intros k s Hk. by rewrite (get_operation_ids_lookup _ _ _ _ Hk). }
  split.
  - apply list_eq. intros k. rewrite list_lookup_imap.
    destruct (summaries !! k) as [s|] eqn:Hk; simpl.
    + by apply Hlook.
    + apply lookup_ge_None. rewrite get_operation_ids_length.
      by apply lookup_ge_None.
  - apply NoDup_alt. intros i j x Hi Hj.
    assert (is_Some (summaries !! i)) as [si Hsi].
    { apply lookup_lt_is_Some. rewrite <- (get_operation_ids_length _ ∅).
      apply lookup_lt_is_Some. eauto. }
    assert (is_Some (summaries !! j)) as [sj Hsj].
    { apply lookup_lt_is_Some. rewrite <- (get_operation_ids_length _ ∅).
      apply lookup_lt_is_Some. eauto. }
    rewrite (Hlook _ _ Hsi) in Hi. rewrite (Hlook _ _ Hsj) in Hj.
    injection Hi as Hi. injection Hj as Hj. rewrite <- Hj in Hi.
    apply underscore_split in Hi as [Hkey Hcnt]; [|apply join_if_all_chars..].
    apply (inj pretty) in Hcnt.
    destruct (Nat.lt_trichotomy i j) as [Hlt|[->|Hlt]]; [|done|].
    + pose proof (earlier_calls_take_lt _ _ _ _ _ Hlt Hsi Hsj Hkey). lia.
    + pose proof (earlier_calls_take_lt _ _ _ _ _ Hlt Hsj Hsi (eq_sym Hkey)). lia.
Qed.

End operation_ids.

(** ** [Api.get_resource_methods] and the disabled methods *)
Section resource_methods.
Import Api.

Lemma upper_HTTP_METHODS m : m ∈ HTTP_METHODS → Py.upper m = m.
Proof.
  unfold HTTP_METHODS. rewrite !elem_of_cons, elem_of_nil.
  intros [->|[->|[->|[->|[->|[]]]]]]; reflexivity.
Qed.

Lemma filter_ext_in {A} (P Q : A → Prop) `{∀ x, Decision (P x)} `{∀ x, Decision (Q x)}
    (l : list A) :
  (∀ x, x ∈ l → P x ↔ Q x) → filter P l = filter Q l.
Proof.
  induction l as [|x l IH]; intros Hext; [done|].
  rewrite !filter_cons.
  assert (P x ↔ Q x) as Hx by (apply Hext; left).
  rewrite IH by (intros; apply Hext; by right).
  destruct (decide (P x)), (decide (Q x)); tauto || done.
Qed.

Lemma if_decide_ext {A} (P Q : Prop) `{Decision P, Decision Q} (x y : A) :
  (P ↔ Q) → (if bool_decide P then x else y) = (if bool_decide Q then x else y).
Proof. intros HPQ. by rewrite (bool_decide_ext P Q HPQ). Qed.

Lemma get_resource_methods_intersection r http_methods :
  SAFRSObject_http_methods r = Some http_methods →
  get_resource_methods r HTTP_METHODS
  = Py.lower <$> filter (λ m, m ∈ methods r ∧ m ∈ Py.upper <$> http_methods) HTTP_METHODS.
Proof.
  intros Hm. unfold get_resource_methods. rewrite Hm. f_equal.
  apply filter_ext_in. intros m Hin.
  rewrite (upper_HTTP_METHODS m Hin). split.
  - intros [? Hup]. split; [done|].
    apply list_elem_of_fmap in Hup as (h & Hup & Hh).
    apply list_elem_of_fmap. exists h. 
    apply list_elem_of_filter in Hh as [Hh1 Hh2]. done.
  - intros [? Hup]. split; [done|].
    apply list_elem_of_fmap in Hup as (h & -> & Hh).
    apply list_elem_of_fmap. exists h. split; [done|].
    apply list_elem_of_filter. done.
Qed.

Lemma get_resource_methods_setattr r name h om :
  get_resource_methods (setattr r name h) om = get_resource_methods r om.
Proof. reflexivity. Qed.

(** The loop of lines 377-380 over any list of method names. *)
Lemma disable_fold (l : list string) : ∀ r,
  get_resource_methods (foldl disable_method r l) HTTP_METHODS
  = get_resource_methods r HTTP_METHODS
  ∧ ∀ name,
      attrs (foldl disable_method r l) !! name
      = if bool_decide (name ∈ Py.lower <$> l
                        ∧ name ∉ get_resource_methods r HTTP_METHODS)
        then Some MethodNotAllowed
        else attrs r !! name.
Proof.
  induction l as [|m l IH]; intros r.
  - split; [done|]. intros name. rewrite bool_decide_eq_false_2; [done|].
    intros [H _]. by apply elem_of_nil in H.
  - simpl. destruct (IH (disable_method r m)) as [IH1 IH2].
    assert (get_resource_methods (disable_method r m) HTTP_METHODS
            = get_resource_methods r HTTP_METHODS) as Hsame.
    { unfold disable_method. by destruct (negb _). }
    split; [by rewrite IH1|].
    intros name. rewrite IH2, Hsame. 
    unfold disable_method.
    destruct (Py.contains _ (Py.lower m)) eqn:Hc; simpl.
    + apply contains_true in Hc. apply if_decide_ext.
      rewrite elem_of_cons. split; [tauto|]. intros [[->|?] ?]; done.
    + apply contains_false in Hc.
      destruct (decide (name = Py.lower m)) as [->|Hne].
      * rewrite lookup_insert_eq.
        assert (Py.lower m ∈ Py.lower <$> m :: l
                ∧ Py.lower m ∉ get_resource_methods r HTTP_METHODS) as Ht
          by (split; [left|done]).
        rewrite (bool_decide_eq_true_2 _ Ht). by destruct (bool_decide _).
      * rewrite lookup_insert_ne by done. apply if_decide_ext.
        rewrite elem_of_cons. tauto.
Qed.

Lemma disable_methods_attrs r name :
  attrs (disable_methods r) !! name
  = if bool_decide (name ∈ Py.lower <$> HTTP_METHODS
                    ∧ name ∉ get_resource_methods r HTTP_METHODS)
    then Some MethodNotAllowed
    else attrs r !! name.
Proof. apply (disable_fold HTTP_METHODS r). Qed.

Lemma add_resource_ok env st r urls kw st' r' :
  add_resource env st r urls kw = (st', r', None) → r' = disable_methods r.
Proof.
  unfold add_resource. destruct (collect_operations r kw); [congruence|].
  destruct (document_urls _ _ _ _ _ _ _) as [? [?|]]; congruence.
Qed.

(** C7: when [add_resource] returns, each of GET, POST, PATCH, DELETE, PUT
    that is not among [get_resource_methods] (the HTTP_METHODS, in their
    order, that the resource has and the SAFRS object lists) is, on the
    resource, the handler that returns an empty dictionary and the
    status 405; the other handlers are the ones the resource had. *)
Theorem add_resource_disables_methods env st r urls kw st' r' :
  add_resource env st r urls kw = (st', r', None) →
  (∀ http_methods, SAFRSObject_http_methods r = Some http_methods →
     get_resource_methods r HTTP_METHODS
     = Py.lower <$> filter (λ m, m ∈ methods r ∧ m ∈ Py.upper <$> http_methods)
                      HTTP_METHODS)
  ∧ (∀ http_method, http_method ∈ HTTP_METHODS →
       Py.lower http_method ∉ get_resource_methods r HTTP_METHODS →
       attrs r' !! Py.lower http_method = Some MethodNotAllowed)
  ∧ (∀ hm, hm ∈ get_resource_methods r HTTP_METHODS → attrs r' !! hm = attrs r !! hm)
  ∧ (∀ (X : Type) (x : X), call_MethodNotAllowed x = ([], 405%Z)).
Proof.
  intros ->%add_resource_ok. split; [|split; [|split]].
  - apply get_resource_methods_intersection.
  - intros m Hm Hnot. rewrite disable_methods_attrs.
    rewrite bool_decide_eq_true_2; [done|].
    split; [|done]. by apply list_elem_of_fmap_2.
  - intros hm Hin. rewrite disable_methods_attrs.
    rewrite bool_decide_eq_false_2; [done|]. tauto.
  - reflexivity.
Qed.

End resource_methods.

(** ** Ordered dictionaries *)
Section odict_facts.
Context {V : Type}.
Implicit Types (d : Py.odict V) (k : string) (v : V).

Lemma od_get_set d k v k' :
  Py.od_get (Py.od_set d k v) k' = if decide (k = k') then Some v else Py.od_get d k'.
Proof.
  induction d as [|[k0 v0] d IH]; simpl.
  - rewrite String_eqb_decide. by case_bool_decide; case_decide.
  - rewrite (String_eqb_decide k0 k). case_bool_decide as Hk; simpl.
    + subst k0. rewrite (String_eqb_decide k k'). by case_bool_decide; case_decide.
    + rewrite IH, (String_eqb_decide k0 k').
      case_bool_decide; case_decide; congruence.
Qed.

Lemma od_get_pop d k k' :
  Py.od_get (Py.od_pop d k) k' = if decide (k = k') then None else Py.od_get d k'.
Proof.
  induction d as [|[k0 v0] d IH]; simpl.
  - by case_decide.
  - rewrite (String_eqb_decide k0 k). case_bool_decide as Hk; simpl.
    + subst k0. rewrite IH, (String_eqb_decide k k').
      by case_bool_decide; case_decide.
    + rewrite IH, (String_eqb_decide k0 k').
      case_bool_decide; case_decide; congruence.
Qed.

Lemma od_get_None d k : Py.od_get d k = None ↔ k ∉ Py.od_keys d.
Proof.
  unfold Py.od_keys. induction d as [|[k0 v0] d IH]; simpl.
  - split; [intros _; apply not_elem_of_nil|done].
  - rewrite (String_eqb_decide k0 k), not_elem_of_cons.
    case_bool_decide as Hk; [split; [done|intros [? _]; congruence]|].
    rewrite IH. split; [intros ?; split; [congruence|done]|intros [_ ?]; done].
Qed.

Lemma od_keys_set d k v k' :
  k' ∈ Py.od_keys (Py.od_set d k v) ↔ k' = k ∨ k' ∈ Py.od_keys d.
Proof.
  destruct (decide (k' ∈ Py.od_keys (Py.od_set d k v))) as [Hin|Hout].
  - split; [|done]. intros _.
    destruct (decide (k' = k)) as [|Hne]; [by left|right].
    destruct (decide (k' ∈ Py.od_keys d)) as [|Hd]; [done|].
    apply od_get_None in Hd. exfalso. revert Hin. apply od_get_None.
    rewrite od_get_set. by rewrite decide_False.
  - split; [done|]. apply od_get_None in Hout. rewrite od_get_set in Hout.
    case_decide; [done|]. apply od_get_None in Hout. intros [->|?]; done.
Qed.

End odict_facts.

(** ** Swagger paths: no [post] on an instance path *)
Section swagger_paths.
Import Api.
Variable env : environment.
Variable r : resource.

(** One method: a key that is absent stays absent. *)
Lemma document_method_absent swagger_url inst rpc ids path_item method k :
  Py.od_get path_item k = None →
  Py.od_get (document_method env r swagger_url inst rpc ids path_item method).1.2 k = None.
Proof.
  intros Hk. unfold document_method.
  destruct (String.eqb method "post" && inst); simpl.
  { rewrite od_get_pop. by case_decide. }
  destruct (Py.od_get path_item method) as [method_doc|] eqn:Hm; [|done].
  destruct (default (Some EmptyString) (summary method_doc)) as [s|]; [|done].
  destruct (get_operation_id ids s) as [ids' op].
  assert (method ≠ k) by congruence.
  destruct (validate_path_item_object env _); simpl;
    rewrite od_get_set; by rewrite decide_False.
Qed.

Lemma document_methods_absent swagger_url inst rpc todo : ∀ ids path_item k,
  Py.od_get path_item k = None →
  Py.od_get (document_methods env r swagger_url inst rpc ids path_item todo).1.2 k = None.
Proof.
  induction todo as [|method todo IH]; intros ids path_item k Hk; [done|].
  simpl.
  pose proof (document_method_absent swagger_url inst rpc ids path_item method k Hk) as H1.
  destruct (document_method env r swagger_url inst rpc ids path_item method)
    as [[ids' path_item'] [e|]]; simpl in *; [done|].
  by apply IH.
Qed.

(** On an instance url, a loop that reaches [post] without exception
    leaves no [post]. *)
Lemma document_methods_pops_post swagger_url rpc todo : ∀ ids path_item,
  "post" ∈ todo →
  (document_methods env r swagger_url true rpc ids path_item todo).2 = None →
  Py.od_get (document_methods env r swagger_url true rpc ids path_item todo).1.2 "post"
  = None.
Proof.
  induction todo as [|method todo IH]; intros ids path_item Hin Hok.
  { by apply elem_of_nil in Hin. }
  simpl in *.
  destruct (decide (method = "post")) as [->|Hne].
  - change (document_method env r swagger_url true rpc ids path_item "post")
      with (ids, Py.od_pop path_item "post", @None exn) in *.
    apply document_methods_absent. rewrite od_get_pop. by rewrite decide_True.
  - apply elem_of_cons in Hin as [?|Hin]; [done|].
    destruct (document_method env r swagger_url true rpc ids path_item method)
      as [[ids' path_item'] [e|]]; simpl in *; [done|].
    by apply IH.
Qed.

(** The operations collected from the resource are among its methods. *)
Lemma collect_operations_keys kw k :
  k ∉ get_resource_methods r HTTP_METHODS →
  Py.od_get (collect_operations r kw) k = None.
Proof.
  unfold collect_operations.
  generalize (get_resource_methods r HTTP_METHODS) as l.
  intros l Hk. 
  assert (Py.od_get ([] : path_item_object) k = None) as Hacc by done.
  revert Hacc. generalize ([] : path_item_object) as acc.
  induction l as [|m l IH]; intros acc Hacc; [done|].
  apply not_elem_of_cons in Hk as [Hne Hk]. simpl. apply IH; [done|].
  destruct (kw_deprecated kw); [done|].
  destruct (negb _); [done|].
  destruct (attrs r !! m) as [[[op|] doc|]|]; try done.
  rewrite od_get_set. by rewrite decide_False.
Qed.

(** Writing the path item of this call back keeps the document sound. *)
Lemma store_preserves st a path_item path_item' ids paths' :
  objects st !! a = Some path_item →
  paths_allocated st →
  no_post_on_instances env st →
  (Py.od_get path_item "post" = None → Py.od_get path_item' "post" = None) →
  (∀ url b, paths' !! url = Some b →
     paths st !! url = Some b
     ∨ (b = a ∧ (exposing_instance env url = true → Py.od_get path_item' "post" = None))) →
  let st' := {| _operation_ids := ids;
                objects := <[a := path_item']> (objects st);
                paths := paths' |} in
  objects st' !! a = Some path_item' ∧ paths_allocated st' ∧ no_post_on_instances env st'.
Proof.
  intros Ha Halloc Hinv Hkeep Hpaths st'.
  assert (a < length (objects st)) as Hlt by (by eapply lookup_lt_Some).
  split; [|split].
  - simpl. by apply list_lookup_insert_eq.
  - intros url b Hb. simpl in *. rewrite length_insert.
    destruct (Hpaths _ _ Hb) as [Hold|[-> _]]; [by eapply Halloc|done].
  - intros url p Hp Hinst. unfold swagger_path in Hp. simpl in Hp.
    destruct (paths' !! url) as [b|] eqn:Hb; [|done]. simpl in Hp.
    destruct (decide (b = a)) as [->|Hne].
    + rewrite list_lookup_insert_eq in Hp by done. injection Hp as <-.
      destruct (Hpaths _ _ Hb) as [Hold|[_ Hnew]]; [|by apply Hnew].
      apply Hkeep. apply (Hinv url); [|done].
      unfold swagger_path. by rewrite Hold.
    + rewrite list_lookup_insert_ne in Hp by done.
      destruct (Hpaths _ _ Hb) as [Hold|[? _]]; [|done].
      apply (Hinv url); [|done]. unfold swagger_path. by rewrite Hold.
Qed.

Lemma document_urls_preserves rpc a urls : ∀ st path_item,
  objects st !! a = Some path_item →
  paths_allocated st →
  no_post_on_instances env st →
  ("post" ∈ get_resource_methods r HTTP_METHODS ∨ Py.od_get path_item "post" = None) →
  paths_allocated (document_urls env r rpc a st path_item urls).1
  ∧ no_post_on_instances env (document_urls env r rpc a st path_item urls).1.
Proof.
  induction urls as [|url urls IH]; intros st path_item Ha Halloc Hinv Hkeys; simpl.
  - eapply store_preserves; eauto.
  - destruct (negb (Py.startswith url "/")); simpl.
    { eapply store_preserves; eauto. }
    set (swagger_url := extract_swagger_path env url).
    pose proof (document_methods_absent swagger_url (exposing_instance env swagger_url)
                  rpc (get_resource_methods r HTTP_METHODS) (_operation_ids st)
                  path_item "post") as Habs.
    pose proof (document_methods_pops_post swagger_url rpc
                  (get_resource_methods r HTTP_METHODS) (_operation_ids st)
                  path_item) as Hpop.
    destruct (document_methods env r swagger_url (exposing_instance env swagger_url)
                rpc (_operation_ids st) path_item (get_resource_methods r HTTP_METHODS))
      as [[ids' path_item'] [e|]] eqn:Hdoc; simpl in *.
    { eapply store_preserves; eauto. }
    assert (Py.od_get path_item' "post" = None
            → "post" ∈ get_resource_methods r HTTP_METHODS
              ∨ Py.od_get path_item' "post" = None) as Hkeys' by auto.
    edestruct (store_preserves st a path_item path_item' ids'
                 (<[swagger_url := a]> (paths st))) as (Ha' & Halloc' & Hinv'); eauto.
    { intros url' b. rewrite lookup_insert. case_decide as Hu; [|by left].
      intros [= <-]. right. split; [done|]. subst url'. intros Hinst.
      destruct Hkeys as [Hin|Hnone]; [|by apply Habs].
      rewrite Hinst in Hdoc. rewrite Hdoc in Hpop. by apply Hpop. }
    apply IH; [done..|].
    destruct Hkeys as [Hin|Hnone]; [by left|right; by apply Habs].
Qed.

Lemma add_resource_state st urls kw :
  (add_resource env st r urls kw).1.1
  = match collect_operations r kw with
    | [] => st
    | path_item =>
        (document_urls env r (kw_jsonapi_rpc kw) (length (objects st))
           {| _operation_ids := _operation_ids st;
              objects := objects st ++ [path_item];
              paths := paths st |} path_item urls).1
    end.
Proof.
  unfold add_resource. destruct (collect_operations r kw); [done|].
  by destruct (document_urls _ _ _ _ _ _ _) as [? [?|]].
Qed.

Lemma add_resource_preserves st urls kw :
  paths_allocated st →
  no_post_on_instances env st →
  paths_allocated (add_resource env st r urls kw).1.1
  ∧ no_post_on_instances env (add_resource env st r urls kw).1.1.
Proof.
  intros Halloc Hinv. rewrite add_resource_state.
  pose proof (collect_operations_keys kw "post") as Hkeys.
  destruct (collect_operations r kw) as [|item rest] eqn:Hc; [done|].
  remember (item :: rest) as path_item eqn:Hpi. clear Hpi Hc.
  apply document_urls_preserves.
  - simpl. by rewrite lookup_app_r, Nat.sub_diag by done.
  - intros url a Ha. simpl in *. rewrite length_app. simpl.
    specialize (Halloc _ _ Ha). lia.
  - intros url p Hp Hinst. apply (Hinv url); [|done].
    unfold swagger_path in *. simpl in *.
    destruct (paths st !! url) as [b|] eqn:Hb; [|done]. simpl in *.
    by rewrite lookup_app_l in Hp by (by eapply Halloc).
  - destruct (decide ("post" ∈ get_resource_methods r HTTP_METHODS));
      [by left|right; by apply Hkeys].
Qed.

End swagger_paths.

Section swagger_document.
Import Api.

Lemma add_resources_preserves env calls : ∀ st,
  paths_allocated st →
  no_post_on_instances env st →
  paths_allocated (add_resources env st calls)
  ∧ no_post_on_instances env (add_resources env st calls).
Proof.
  induction calls as [|[[r urls] kw] calls IH]; intros st Halloc Hinv; [done|].
  unfold add_resources in *. simpl.
  destruct (add_resource_preserves env r st urls kw Halloc Hinv). by apply IH.
Qed.

(** C4: in the swagger document that any sequence of calls of
    [add_resource] builds, the path item of an instance path, one whose
    swagger url stripped of slashes ends with the object-id suffix and a
    closing brace, has no [post] operation; [add_resource] removes it
    from the path item of the call when it meets such a url. *)
Theorem no_post_on_instance_paths env calls swagger_url path_item :
  swagger_path (add_resources env initial_api calls) swagger_url = Some path_item →
  exposing_instance env swagger_url = true →
  Py.od_get path_item "post" = None.
Proof.
  destruct (add_resources_preserves env calls initial_api) as [_ Hinv]; [done..|].
  apply Hinv.
Qed.

End swagger_document.

(** ** The result monad *)
Section res_facts.
Import SAFRSBase.

Lemma bind_Ok {A B} (m : res A) (f : A → res B) (b : B) :
  m ≫= f = Ok b → ∃ a, m = Ok a ∧ f a = Ok b.
Proof. destruct m as [a|e]; [eauto|done]. Qed.

Lemma filterM_Ok {A} (f : A → res bool) (l l' : list A) :
  filterM f l = Ok l' → ∀ x, x ∈ l' ↔ x ∈ l ∧ f x = Ok true.
Proof.
  revert l'. induction l as [|y l IH]; simpl; intros l' Hl x.
  - injection Hl as <-. split; [by intros ?%elem_of_nil|by intros [?%elem_of_nil _]].
  - apply bind_Ok in Hl as (b & Hb & Hl). apply bind_Ok in Hl as (l0 & Hl0 & Hl).
    injection Hl as <-. specialize (IH l0 Hl0 x). rewrite elem_of_cons.
    destruct b.
    + rewrite elem_of_cons, IH. split; [intros [->|[??]]; auto|].
      intros [[->|?] ?]; auto.
    + rewrite IH. split; [intros [??]; auto|].
      intros [[->|?] ?]; [congruence|auto].
Qed.


End res_facts.

(** ** [_s_check_perm], [_s_jsonapi_attrs] and [to_dict] *)
Section serialization.
Import SAFRSBase.
Implicit Types (ctx : context) (self : instance) (cls : class).

Lemma check_perm_hidden cls name permission :
  Py.startswith name "_" = true ∨ name ∈ exclude_attrs cls →
  _s_check_perm cls name permission = Ok false.
Proof.
  intros [Hu|Hex]; unfold _s_check_perm.
  - by rewrite Hu.
  - destruct (Py.startswith name "_"); [done|].
    apply contains_true in Hex. by rewrite Hex.
Qed.

(** What [store_field] does to the keys. *)
Lemma store_field_dom ctx result attr attr_val :
  dom (store_field ctx result attr attr_val) ⊆ {[attr]} ∪ dom result.
Proof.
  unfold store_field. destruct (current_app ctx) as [enc|].
  - destruct (json_roundtrip enc attr_val); rewrite ?dom_insert_L; set_solver.
  - rewrite dom_insert_L. set_solver.
Qed.

Lemma store_field_dom_total ctx result attr attr_val :
  encoder_never_fails ctx →
  dom (store_field ctx result attr attr_val) = {[attr]} ∪ dom result.
Proof.
  intros Hnf. unfold store_field. destruct (current_app ctx) as [enc|] eqn:Happ.
  - specialize (Hnf enc Happ).
    destruct (json_roundtrip enc attr_val) eqn:Hrt; rewrite ?dom_insert_L; try done.
    destruct attr_val; try done. by apply Hnf in Hrt.
  - by rewrite dom_insert_L.
Qed.

(** The loop over the requested fields. *)
Lemma fields_loop_dom ctx self ja_attr_names fields_ : ∀ acc d,
  foldlM (λ result attr,
            attr_val ← field_value self ja_attr_names attr;
            Ok (store_field ctx result attr attr_val)) acc fields_ = Ok d →
  dom d ⊆ list_to_set fields_ ∪ dom acc
  ∧ (encoder_never_fails ctx → dom d = list_to_set fields_ ∪ dom acc).
Proof.
  induction fields_ as [|attr fields_ IH]; simpl; intros acc d Hd.
  - injection Hd as <-. split; [set_solver|intros _; set_solver].
  - apply bind_Ok in Hd as (acc' & Hacc' & Hd).
    apply bind_Ok in Hacc' as (attr_val & _ & Hacc'). injection Hacc' as <-.
    destruct (IH _ _ Hd) as [IH1 IH2]. split.
    + pose proof (store_field_dom ctx acc attr attr_val). set_solver.
    + intros Hnf. rewrite (IH2 Hnf), (store_field_dom_total _ _ _ _ Hnf). set_solver.
Qed.

End serialization.

Section to_dict_claims.
Import SAFRSBase.
Implicit Types (ctx : context) (self : instance) (cls : class).

(** [to_dict], unfolded: the class attributes, the fields to walk, the
    readable names and the loop. *)
Lemma to_dict_Ok ctx self d :
  to_dict ctx self = Ok d →
  ∃ class_attrs ja_attr_names,
    class_jsonapi_attrs (inst_class self) (has_request_context ctx) = Ok class_attrs
    ∧ filterM (λ name, _s_check_perm (inst_class self) name "r") (Py.od_keys class_attrs)
      = Ok ja_attr_names
    ∧ foldlM (λ result attr,
                attr_val ← field_value self ja_attr_names attr;
                Ok (store_field ctx result attr attr_val)) ∅
        (default (Py.od_keys class_attrs)
           (requested_fields ctx (class_name (inst_class self))))
      = Ok d.
Proof.
  unfold to_dict, _s_jsonapi_attrs. intros H.
  apply bind_Ok in H as (class_attrs & Hattrs & H).
  apply bind_Ok in H as (ja & Hja & H).
  exists class_attrs, ja. split; [done|]. split; [done|].
  unfold requested_fields.
  destruct (ctx_request ctx) as [req|]; simpl; [|done].
  by destruct (fields req !! class_name (inst_class self)).
Qed.

(** C1, as the code has it: the keys of the dictionary that [to_dict]
    returns are among the sparse fieldset that the request gives for the
    name of the instance's class; without such a fieldset they are among
    the names of the class's jsonapi attributes, and they are exactly
    these names when the application's encoder raises for no value (a
    value whose encoding fails is left out). *)
Theorem to_dict_sparse_fieldsets ctx self d :
  to_dict ctx self = Ok d →
  (∀ requested,
     requested_fields ctx (class_name (inst_class self)) = Some requested →
     ∀ name, name ∈ dom d → name ∈ requested)
  ∧ (requested_fields ctx (class_name (inst_class self)) = None →
     ∀ class_attrs,
       class_jsonapi_attrs (inst_class self) (has_request_context ctx) = Ok class_attrs →
       (∀ name, name ∈ dom d → name ∈ Py.od_keys class_attrs)
       ∧ (encoder_never_fails ctx →
          ∀ name, name ∈ dom d ↔ name ∈ Py.od_keys class_attrs)).
Proof.
  intros (class_attrs & ja & Hattrs & _ & Hloop)%to_dict_Ok.
  apply fields_loop_dom in Hloop as [Hsub Heq]. split.
  - intros requested Hreq name Hname. rewrite Hreq in Hsub. simpl in Hsub.
    set_solver.
  - intros Hnone class_attrs' Hattrs'.
    assert (class_attrs' = class_attrs) as -> by congruence.
    rewrite Hnone in Hsub, Heq. simpl in *. split; [set_solver|].
    intros Hnf name. rewrite (Heq Hnf). set_solver.
Qed.

(** The placeholder that stands for a value that may not be read. *)
Lemma store_placeholder ctx result attr :
  store_field ctx result attr (VStr "") = <[attr := VStr ""]> result.
Proof. unfold store_field. by destruct (current_app ctx). Qed.

Lemma fields_loop_hidden ctx self ja_attr_names name fields_ : ∀ acc d,
  name ∉ ja_attr_names →
  foldlM (λ result attr,
            attr_val ← field_value self ja_attr_names attr;
            Ok (store_field ctx result attr attr_val)) acc fields_ = Ok d →
  d !! name = acc !! name ∨ d !! name = Some (VStr "").
Proof.
  intros acc d Hname. revert acc.
  induction fields_ as [|attr fields_ IH]; simpl; intros acc Hd.
  - injection Hd as <-. by left.
  - apply bind_Ok in Hd as (acc' & Hacc' & Hd).
    apply bind_Ok in Hacc' as (attr_val & Hval & Hacc'). injection Hacc' as <-.
    destruct (IH _ Hd) as [-> | ->]; [|by right].
    destruct (decide (attr = name)) as [->|Hne].
    + right. unfold field_value in Hval.
      apply contains_false in Hname. rewrite Hname in Hval. injection Hval as <-.
      rewrite store_placeholder. by rewrite lookup_insert_eq.
    + left. unfold store_field. destruct (current_app ctx) as [enc|].
      * destruct (json_roundtrip enc attr_val); by rewrite ?lookup_insert_ne.
      * by rewrite lookup_insert_ne.
Qed.

(** C2, as the code has it: for an attribute whose name starts with an
    underscore or is listed in [exclude_attrs], [_s_check_perm] returns
    [False], and the dictionary that [to_dict] returns never holds the
    value of such an attribute: if its name is a key at all, whatever
    the client requests, the value under it is the empty string. *)
Theorem hidden_attributes_not_serialized ctx self name :
  Py.startswith name "_" = true ∨ name ∈ exclude_attrs (inst_class self) →
  (∀ permission, _s_check_perm (inst_class self) name permission = Ok false)
  ∧ (∀ d v, to_dict ctx self = Ok d → d !! name = Some v → v = VStr "").
Proof.
  intros Hhidden. split.
  - intros permission. by apply check_perm_hidden.
  - intros d v (class_attrs & ja & _ & Hja & Hloop)%to_dict_Ok Hv.
    assert (name ∉ ja) as Hname.
    { intros Hin. apply (filterM_Ok _ _ _ Hja) in Hin as [_ Hp].
      rewrite check_perm_hidden in Hp; done. }
    destruct (fields_loop_hidden _ _ _ _ _ _ _ Hname Hloop) as [H|H];
      rewrite H in Hv; [by rewrite lookup_empty in Hv|congruence].
Qed.

End to_dict_claims.

(** ** [_s_patch] and [_s_post] *)
Section patch_and_post.
Import SAFRSBase.
Implicit Types (cfg : config) (ctx : context) (self : instance) (cls : class).

Lemma od_keys_cons {V} (k : string) (v : V) (d : Py.odict V) :
  Py.od_keys ((k, v) :: d) = k :: Py.od_keys d.
Proof. reflexivity. Qed.

Lemma od_keys_here {V} (k : string) (v : V) (d : Py.odict V) :
  k ∈ Py.od_keys ((k, v) :: d).
Proof. left. Qed.

Lemma od_keys_later {V} (a k : string) (v : V) (d : Py.odict V) :
  a ∈ Py.od_keys d → a ∈ Py.od_keys ((k, v) :: d).
Proof. by right. Qed.

Lemma stored_as_in_dict cls name m :
  class_dict_get cls name = Some m → stored_as cls name = name.
Proof.
  intros Hm. unfold stored_as.
  destruct (String.eqb_spec name "Type") as [->|]; [|done].
  rewrite bool_decide_eq_false_2; [done|congruence].
Qed.

Lemma stored_as_other cls name : name ≠ "Type" → stored_as cls name = name.
Proof.
  intros Hne. unfold stored_as.
  by destruct (String.eqb_spec name "Type").
Qed.

Lemma stored_as_Type cls :
  class_dict_get cls "Type" = None → stored_as cls "Type" = "type".
Proof. intros H. unfold stored_as. simpl. by rewrite bool_decide_eq_true_2. Qed.

(** [setattr] writes the attribute that holds the value of the name, and
    nothing else. *)
Lemma setattr_frame self attr_name attr_val self' :
  setters_local (inst_class self) →
  setattr self attr_name attr_val = Ok self' →
  inst_class self' = inst_class self
  ∧ ∀ n, n ≠ stored_as (inst_class self) attr_name →
         inst_attrs self' !! n = inst_attrs self !! n.
Proof.
  intros Hlocal. unfold setattr.
  destruct (class_dict_get (inst_class self) attr_name) as [[nm [] [setter|]]|] eqn:Hm.
  - intros [= <-]. split; [done|]. intros n Hn. simpl.
    rewrite (stored_as_in_dict _ _ _ Hm) in Hn. by eapply Hlocal.
  - intros [= <-]. done.
  - intros [= <-]. split; [done|]. intros n Hn. simpl.
    rewrite (stored_as_in_dict _ _ _ Hm) in Hn. by rewrite lookup_insert_ne.
  - intros [= <-]. split; [done|]. intros n Hn. simpl.
    rewrite (stored_as_in_dict _ _ _ Hm) in Hn. by rewrite lookup_insert_ne.
  - destruct (String.eqb_spec attr_name "Type") as [->|Hne].
    + unfold Type_setter. intros H. apply bind_Ok in H as (old & _ & H).
      destruct (negb (py_eq old attr_val)); [done|]. injection H as <-.
      split; [done|]. intros n Hn. simpl.
      rewrite (stored_as_Type _ Hm) in Hn. by rewrite lookup_insert_ne.
    + intros [= <-]. split; [done|]. intros n Hn. simpl.
      rewrite (stored_as_other _ _ Hne) in Hn. by rewrite lookup_insert_ne.
Qed.

Lemma patch_attribute_frame cfg ctx self attr_name attr_val :
  setters_local (inst_class self) →
  inst_class (patch_attribute cfg ctx self (attr_name, attr_val)).1 = inst_class self
  ∧ ∀ n, inst_attrs (patch_attribute cfg ctx self (attr_name, attr_val)).1 !! n
         ≠ inst_attrs self !! n →
      (∃ class_attrs,
          class_jsonapi_attrs (inst_class self) (has_request_context ctx) = Ok class_attrs
          ∧ attr_name ∈ Py.od_keys class_attrs)
      ∧ _s_check_perm (inst_class self) attr_name "w" = Ok true
      ∧ n = stored_as (inst_class self) attr_name.
Proof.
  intros Hlocal. unfold patch_attribute.
  destruct (class_jsonapi_attrs _ _) as [class_attrs|e]; [|done].
  destruct (Py.contains _ attr_name) eqn:Hin; simpl; [|done].
  apply contains_true in Hin.
  destruct (_s_check_perm _ attr_name "w") as [[]|e]; [|done..].
  destruct (_s_parse_attr_value _ _ _ _ _) as [v|e]; [|done].
  destruct (setattr self attr_name v) as [self'|e] eqn:Hset; [|done].
  destruct (setattr_frame _ _ _ _ Hlocal Hset) as [Hcls Hframe].
  split; [done|]. intros n Hn. split; [eauto|]. split; [done|].
  destruct (decide (n = stored_as (inst_class self) attr_name)); [done|].
  by destruct Hn; apply Hframe.
Qed.

Lemma patch_undeclared cfg ctx self class_attrs attr_name attr_val :
  class_jsonapi_attrs (inst_class self) (has_request_context ctx) = Ok class_attrs →
  attr_name ∉ Py.od_keys class_attrs →
  patch_attribute cfg ctx self (attr_name, attr_val) = (self, None).
Proof.
  intros Hattrs Hout. unfold patch_attribute. rewrite Hattrs.
  apply contains_false in Hout. by rewrite Hout.
Qed.

Lemma _s_patch_cons cfg ctx self item attributes :
  _s_patch cfg ctx self (item :: attributes)
  = match patch_attribute cfg ctx self item with
    | (self, None) => _s_patch cfg ctx self attributes
    | stop => stop
    end.
Proof. reflexivity. Qed.

Lemma _s_patch_frame cfg ctx attributes : ∀ self,
  setters_local (inst_class self) →
  inst_class (_s_patch cfg ctx self attributes).1 = inst_class self
  ∧ ∀ n, inst_attrs (_s_patch cfg ctx self attributes).1 !! n ≠ inst_attrs self !! n →
      ∃ attr_name,
        attr_name ∈ Py.od_keys attributes
        ∧ (∃ class_attrs,
             class_jsonapi_attrs (inst_class self) (has_request_context ctx)
             = Ok class_attrs
             ∧ attr_name ∈ Py.od_keys class_attrs)
        ∧ _s_check_perm (inst_class self) attr_name "w" = Ok true
        ∧ n = stored_as (inst_class self) attr_name.
Proof.
  induction attributes as [|[attr_name attr_val] attributes IH]; intros self Hlocal.
  { split; [done|]. intros n Hn. by destruct Hn. }
  rewrite _s_patch_cons.
  destruct (patch_attribute_frame cfg ctx self attr_name attr_val Hlocal)
    as [Hcls Hframe].
  destruct (patch_attribute cfg ctx self (attr_name, attr_val))
    as [self1 [e|]] eqn:Hp; simpl in *.
  - split; [done|]. intros n Hn. exists attr_name.
    split; [left|by apply Hframe].
  - rewrite <- Hcls in Hlocal. destruct (IH self1 Hlocal) as [Hcls' IH'].
    split; [congruence|]. intros n Hn.
    destruct (decide (inst_attrs self1 !! n = inst_attrs self !! n)) as [Heq|Hne].
    + rewrite <- Heq in Hn. destruct (IH' n Hn) as (a & Ha & Hrest).
      exists a. rewrite Hcls in Hrest. split; [by right|done].
    + exists attr_name. split; [left|by apply Hframe].
Qed.

Lemma _s_patch_skips cfg ctx class_attrs attributes : ∀ self,
  class_jsonapi_attrs (inst_class self) (has_request_context ctx) = Ok class_attrs →
  setters_local (inst_class self) →
  _s_patch cfg ctx self attributes
  = _s_patch cfg ctx self
      (filter (λ item, item.1 ∈ Py.od_keys class_attrs) attributes).
Proof.
  induction attributes as [|[attr_name attr_val] attributes IH];
    intros self Hattrs Hlocal; [done|].
  rewrite filter_cons. simpl decide. case_decide as Hin.
  - rewrite !_s_patch_cons.
    destruct (patch_attribute_frame cfg ctx self attr_name attr_val Hlocal)
      as [Hcls _].
    destruct (patch_attribute cfg ctx self (attr_name, attr_val))
      as [self1 [e|]]; [done|]. simpl in Hcls.
    apply IH; by rewrite Hcls.
  - rewrite _s_patch_cons, (patch_undeclared _ _ _ _ _ _ Hattrs Hin). by apply IH.
Qed.

(** C9: [_s_patch] changes an attribute of the instance only for a name
    among the given attributes that is declared in the class's
    [_s_jsonapi_attrs] and for which [_s_check_perm] grants the
    permission to write, and leaves every other attribute as it was;
    the names that are not in [_s_jsonapi_attrs] are skipped and raise
    nothing.  The attribute changed for the jsonapi name [Type] is the
    column [type] that the property [Type] stands for. *)
Theorem _s_patch_writes_declared_writable cfg ctx self attributes class_attrs :
  setters_local (inst_class self) →
  class_jsonapi_attrs (inst_class self) (has_request_context ctx) = Ok class_attrs →
  (∀ n, inst_attrs (_s_patch cfg ctx self attributes).1 !! n ≠ inst_attrs self !! n →
     ∃ attr_name,
       attr_name ∈ Py.od_keys attributes
       ∧ attr_name ∈ Py.od_keys class_attrs
       ∧ _s_check_perm (inst_class self) attr_name "w" = Ok true
       ∧ n = stored_as (inst_class self) attr_name)
  ∧ _s_patch cfg ctx self attributes
    = _s_patch cfg ctx self
        (filter (λ item, item.1 ∈ Py.od_keys class_attrs) attributes)
  ∧ ((∀ attr_name, attr_name ∈ Py.od_keys attributes →
                   attr_name ∉ Py.od_keys class_attrs) →
     _s_patch cfg ctx self attributes = (self, None)).
Proof.
  intros Hlocal Hattrs. split; [|split].
  - intros n Hn.
    destruct (_s_patch_frame cfg ctx attributes self Hlocal) as [_ Hframe].
    destruct (Hframe n Hn) as (a & Ha & (ca & Hca & Hin) & Hperm & Hst).
    exists a. assert (ca = class_attrs) as -> by congruence. done.
  - by apply _s_patch_skips.
  - intros Hall. rewrite (_s_patch_skips _ _ _ _ _ Hattrs Hlocal).
    replace (filter _ attributes) with (@nil (string * value)); [done|].
    symmetry. clear Hlocal Hattrs.
    induction attributes as [|[k v] attributes IH]; [done|].
    rewrite filter_cons. simpl. rewrite decide_False.
    + apply IH. intros a Ha. apply Hall. by apply od_keys_later.
    + apply Hall. apply od_keys_here.
Qed.

(** A dictionary comprehension that keeps the keys with a property. *)
Lemma od_get_filter {V} (P : string → Prop) `{∀ k, Decision (P k)}
    (d : Py.odict V) (k : string) :
  Py.od_get (filter (λ item, P item.1) d) k = if decide (P k) then Py.od_get d k else None.
Proof.
  induction d as [|[k0 v0] d IH]; simpl.
  - by case_decide.
  - rewrite filter_cons. simpl. destruct (decide (P k0)) as [Hk0|Hk0]; simpl.
    + rewrite (String_eqb_decide k0 k). case_bool_decide as Hk; [|done].
      subst k0. by rewrite decide_True.
    + rewrite IH, (String_eqb_decide k0 k). case_bool_decide as Hk; [|done].
      subst k0. by rewrite !decide_False by done.
Qed.

Lemma od_get_filter_in {V} (l : list string) (d : Py.odict V) (k : string) :
  Py.od_get (filter (λ item, item.1 ∈ l) d) k
  = if decide (k ∈ l) then Py.od_get d k else None.
Proof. exact (od_get_filter (λ k, k ∈ l) d k). Qed.

Lemma od_get_filter_not_in {V} (l : list string) (d : Py.odict V) (k : string) :
  Py.od_get (filter (λ item, item.1 ∉ l) d) k
  = if decide (k ∉ l) then Py.od_get d k else None.
Proof. exact (od_get_filter (λ k, k ∉ l) d k). Qed.

Lemma od_keys_get {V} (d : Py.odict V) (k : string) :
  k ∈ Py.od_keys d ↔ Py.od_get d k ≠ None.
Proof.
  rewrite od_get_None. split; [tauto|].
  intros H. by destruct (decide (k ∈ Py.od_keys d)).
Qed.

Lemma od_keys_filter_in {V} (l : list string) (d : Py.odict V) (k : string) :
  k ∈ Py.od_keys (filter (λ item, item.1 ∈ l) d) ↔ k ∈ l ∧ k ∈ Py.od_keys d.
Proof. rewrite !od_keys_get, od_get_filter_in. case_decide; tauto. Qed.

Lemma od_keys_filter_not_in {V} (l : list string) (d : Py.odict V) (k : string) :
  k ∈ Py.od_keys (filter (λ item, item.1 ∉ l) d) ↔ (k ∉ l) ∧ k ∈ Py.od_keys d.
Proof. rewrite !od_keys_get, od_get_filter_not_in. case_decide; tauto. Qed.

(** C10: [_s_post] calls the class with the sanitized attributes: every
    attribute that is not declared in the class's [_s_jsonapi_attrs] is
    dropped; when [allow_client_generated_ids] is [False], every
    attribute named like a primary-key column of the id type is dropped
    as well and the [id] argument is not passed on; when it is [True],
    the [id] argument is passed on as the attribute [id].  The
    attributes that are kept keep their values. *)
Theorem _s_post_sanitizes ctx instantiate cls id attributes class_attrs :
  class_jsonapi_attrs cls (has_request_context ctx) = Ok class_attrs →
  _s_post ctx instantiate cls id attributes
  = instantiate cls (sanitize cls class_attrs id attributes)
  ∧ (∀ name, name ∈ Py.od_keys (sanitize cls class_attrs id attributes) →
       (name ∈ Py.od_keys class_attrs ∧ name ∈ Py.od_keys attributes)
       ∨ (allow_client_generated_ids cls = true ∧ name = "id"))
  ∧ (allow_client_generated_ids cls = false →
     (∀ name, name ∈ id_type_column_names cls →
              name ∉ Py.od_keys (sanitize cls class_attrs id attributes))
     ∧ (∀ name, name ∈ Py.od_keys class_attrs → name ∉ id_type_column_names cls →
          Py.od_get (sanitize cls class_attrs id attributes) name
          = Py.od_get attributes name)
     ∧ ∀ id', sanitize cls class_attrs id' attributes
              = sanitize cls class_attrs id attributes)
  ∧ (allow_client_generated_ids cls = true →
     Py.od_get (sanitize cls class_attrs id attributes) "id" = Some id
     ∧ ∀ name, name ∈ Py.od_keys class_attrs → name ≠ "id" →
         Py.od_get (sanitize cls class_attrs id attributes) name
         = Py.od_get attributes name).
Proof.
  intros Hattrs. split; [|split; [|split]].
  - unfold _s_post. by rewrite Hattrs.
  - intros name. unfold sanitize.
    destruct (allow_client_generated_ids cls).
    + rewrite od_keys_set. intros [->|Hin]; [by right|left].
      by apply od_keys_filter_in in Hin.
    + intros Hin. left.
      apply od_keys_filter_not_in in Hin as [_ Hin].
      by apply od_keys_filter_in in Hin.
  - intros Hallow. unfold sanitize. rewrite Hallow. split; [|split; [|done]].
    + intros name Hpk Hin.
      by apply od_keys_filter_not_in in Hin as [? _].
    + intros name Hdecl Hpk.
      rewrite od_get_filter_not_in.
      rewrite decide_True by done.
      rewrite od_get_filter_in.
      by rewrite decide_True.
  - intros Hallow. unfold sanitize. rewrite Hallow. split.
    + rewrite od_get_set. by rewrite decide_True.
    + intros name Hdecl Hne. rewrite od_get_set. rewrite decide_False by done.
      rewrite od_get_filter_in.
      by rewrite decide_True.
Qed.

End patch_and_post.

(** ** [_s_get_related] and [_s_jsonapi_encode] *)
Section related.
Import SAFRSBase.
Implicit Types (cfg : config) (ctx : context) (self : instance) (cls : class).

Lemma od_set_fresh {V} (d : Py.odict V) k v :
  k ∉ Py.od_keys d → Py.od_set d k v = d ++ [(k, v)].
Proof.
  unfold Py.od_keys. induction d as [|[k0 v0] d IH]; simpl; [done|].
  intros [Hne Hk]%not_elem_of_cons.
  rewrite (String_eqb_decide k0 k), bool_decide_eq_false_2 by congruence.
  by rewrite IH.
Qed.

Lemma od_set_present {V} (d : Py.odict V) k v :
  k ∈ Py.od_keys d → Py.od_keys (Py.od_set d k v) = Py.od_keys d.
Proof.
  unfold Py.od_keys. induction d as [|[k0 v0] d IH]; simpl.
  - by intros ?%elem_of_nil.
  - rewrite (String_eqb_decide k0 k). case_bool_decide as Hk; simpl; [by subst|].
    intros [?|Hin]%elem_of_cons; [congruence|]. f_equal. by apply IH.
Qed.

Lemma od_set_NoDup {V} (d : Py.odict V) k v :
  NoDup (Py.od_keys d) → NoDup (Py.od_keys (Py.od_set d k v)).
Proof.
  intros Hnd. destruct (decide (k ∈ Py.od_keys d)) as [Hin|Hout].
  - by rewrite od_set_present.
  - rewrite od_set_fresh by done. unfold Py.od_keys in *. rewrite fmap_app.
    apply NoDup_app. split; [done|]. split; [|apply NoDup_singleton].
    intros k' Hk' ->%list_elem_of_singleton. done.
Qed.

Lemma od_set_elem {V} (d : Py.odict V) k0 v0 k v :
  (k, v) ∈ Py.od_set d k0 v0 → (k = k0 ∧ v = v0) ∨ (k, v) ∈ d.
Proof.
  induction d as [|[k1 v1] d IH]; simpl.
  - intros [= -> ->]%list_elem_of_singleton. by left.
  - destruct (String.eqb k1 k0).
    + intros [[= -> ->]|Hin]%elem_of_cons; [by left|right; by right].
    + intros [[= -> ->]|Hin]%elem_of_cons; [right; left|].
      destruct (IH Hin) as [?|?]; [by left|right; by right].
Qed.

(** A dictionary built by assigning each item under its own key. *)
Lemma keyed_dict {A V} (key : A → string) (val : A → V) (l : list A) : ∀ acc,
  NoDup (Py.od_keys acc) →
  (∀ k v, (k, v) ∈ acc → ∃ x, k = key x ∧ v = val x) →
  NoDup (Py.od_keys (foldl (λ d x, Py.od_set d (key x) (val x)) acc l))
  ∧ ∀ k v, (k, v) ∈ foldl (λ d x, Py.od_set d (key x) (val x)) acc l →
           ∃ x, k = key x ∧ v = val x.
Proof.
  induction l as [|x l IH]; intros acc Hnd Hacc; simpl; [done|].
  apply IH; [by apply od_set_NoDup|].
  intros k v [[-> ->]|Hin]%od_set_elem; eauto.
Qed.

Lemma _s_relationships_keyed cls rels :
  _s_relationships cls = Ok rels →
  NoDup (Py.od_keys rels) ∧ ∀ k rel, (k, rel) ∈ rels → k = rel_key rel.
Proof.
  unfold _s_relationships. intros H. apply bind_Ok in H as (l & _ & H).
  injection H as <-.
  destruct (keyed_dict rel_key id l []) as [Hnd Hkey].
  - apply NoDup_nil_2.
  - by intros k v ?%elem_of_nil.
  - split; [done|]. intros k rel Hin.
    destruct (Hkey k rel Hin) as (x & -> & ->). done.
Qed.

(** Walking a keyed dictionary and assigning under the same keys maps
    its values. *)
Lemma foldl_od_set_map {V W} (key : V → string) (g : V → W) (d : Py.odict V) :
  ∀ acc : Py.odict W,
    NoDup (Py.od_keys acc ++ Py.od_keys d) →
    (∀ k v, (k, v) ∈ d → k = key v) →
    foldl (λ (out : Py.odict W) '(_, v), Py.od_set out (key v) (g v)) acc d
    = acc ++ (prod_map id g <$> d).
Proof.
  induction d as [|[k v] d IH]; intros acc Hnd Hkey; simpl.
  - by rewrite app_nil_r.
  - assert (k = key v) as <- by (apply Hkey; left).
    apply NoDup_app in Hnd as (Hacc & Hdisj & Hd).
    apply NoDup_cons in Hd as [Hk Hd].
    assert (k ∉ Py.od_keys acc) as Hfresh.
    { intros Hin. apply (Hdisj k Hin). left. }
    rewrite od_set_fresh by done. rewrite IH.
    + by rewrite <- app_assoc.
    + unfold Py.od_keys in *. rewrite fmap_app. simpl.
      apply NoDup_app. split; [|split; [|done]].
      * apply NoDup_app. split; [done|]. split; [|apply NoDup_singleton].
        intros k' Hk' ->%list_elem_of_singleton. done.
      * intros k' [Hk'| ->%list_elem_of_singleton]%elem_of_app Hin; [|done].
        apply (Hdisj k' Hk'). by right.
    + intros k' v' Hin. apply Hkey. by right.
Qed.

Lemma od_get_prod_map {V W} (g : V → W) (d : Py.odict V) k :
  Py.od_get (prod_map id g <$> d) k = g <$> Py.od_get d k.
Proof.
  induction d as [|[k0 v0] d IH]; simpl; [done|].
  by destruct (String.eqb k0 k).
Qed.

Lemma od_keys_prod_map {V W} (g : V → W) (d : Py.odict V) :
  Py.od_keys (prod_map id g <$> d) = Py.od_keys d.
Proof.
  unfold Py.od_keys. induction d as [|[k0 v0] d IH]; simpl; [done|].
  f_equal. by apply IH.
Qed.

Lemma od_get_elem {V} (d : Py.odict V) k v :
  Py.od_get d k = Some v → (k, v) ∈ d.
Proof.
  induction d as [|[k0 v0] d IH]; simpl; [done|].
  destruct (String.eqb_spec k0 k) as [->|].
  - intros [= ->]. left.
  - intros H. right. by apply IH.
Qed.

(** The relationship object: its links, its data and their shape. *)
Lemma relationship_object_members cfg req self included_list_ included_rels relationship :
  ∃ data,
    Py.od_get (relationship_object cfg req self included_list_ included_rels relationship)
      "links"
    = Some (Links [("self", urljoin cfg (_s_url self) (rel_key relationship))])
    ∧ Py.od_get (relationship_object cfg req self included_list_ included_rels
                   relationship) "data"
      = Some (Data data)
    ∧ linkage_fits (rel_direction relationship) data.
Proof.
  unfold relationship_object.
  destruct (Py.contains included_rels (rel_key relationship)
            || Py.contains included_list_ (INCLUDE_ALL cfg)).
  - destruct (rel_direction relationship) eqn:Hdir.
    + destruct (to_many_data _ _ _ _ _) as [meta items].
      exists (DataList items). destruct meta; simpl; eauto.
    + destruct (inst_to_one self (rel_key relationship)) as [rel_item|].
      * eexists. simpl. eauto.
      * eexists. simpl. split; [done|]. split; [done|]. by left.
    + destruct (to_many_data _ _ _ _ _) as [meta items].
      exists (DataList items). destruct meta; simpl; eauto.
  - destruct (rel_direction relationship) eqn:Hdir; eexists; simpl;
      (split; [done|]); (split; [done|]); simpl; eauto.
Qed.

Lemma check_included_rels_cons cfg cls rels rel_name l :
  _s_relationships cls = Ok rels →
  check_included_rels cfg cls (rel_name :: l)
  = if decide (included_rel_known cfg rels rel_name)
    then check_included_rels cfg cls l
    else Raise (GenericError ("Invalid Relationship '" +:+ rel_name +:+ "'") 400).
Proof.
  intros Hrels. unfold check_included_rels, included_rel_known. simpl.
  rewrite Hrels. simpl.
  destruct (String.eqb_spec rel_name (INCLUDE_ALL cfg)) as [->|Hne]; simpl.
  - rewrite decide_True; [done|by left].
  - destruct (Py.contains (Py.od_keys rels) rel_name) eqn:Hc; simpl.
    + apply contains_true in Hc. rewrite decide_True; [done|by right].
    + apply contains_false in Hc. rewrite decide_False; [done|].
      by intros [?|?].
Qed.

Lemma check_included_rels_spec cfg cls rels l :
  _s_relationships cls = Ok rels →
  ((∃ rel_name, rel_name ∈ l ∧ ¬ included_rel_known cfg rels rel_name) →
   ∃ message, check_included_rels cfg cls l = Raise (GenericError message 400))
  ∧ ((∀ rel_name, rel_name ∈ l → included_rel_known cfg rels rel_name) →
     check_included_rels cfg cls l = Ok ()).
Proof.
  intros Hrels. induction l as [|rel_name l [IH1 IH2]].
  - split; [|done]. intros (n & Hn & _). by apply elem_of_nil in Hn.
  - rewrite (check_included_rels_cons _ _ _ _ _ Hrels). split.
    + intros (n & Hn & Hbad). case_decide as Hk; [|eauto].
      apply IH1. exists n. split; [|done].
      apply elem_of_cons in Hn as [->|Hn]; done.
    + intros Hall. rewrite decide_True by (apply Hall; left).
      apply IH2. intros n Hn. apply Hall. by right.
Qed.

(** Where evaluating [_s_relationships] returns the exposed relationships
    [rels] of the instance, [_s_get_related] in a request does what is
    expected of it: it raises a [GenericError] with status code
    400 when the first segment of some requested include path is neither
    the include-all token nor the name of an exposed relationship;
    otherwise it returns a dictionary with one entry for each exposed
    relationship, under the relationship's name, each with a [links]
    object that holds the [self] link and a [data] member that is a list
    for a to-many relationship, and [None] or one included resource for
    a to-one relationship. *)
Theorem _s_get_related_includes cfg ctx req self rels :
  ctx_request ctx = Some req →
  _s_relationships (inst_class self) = Ok rels →
  ((∃ inc, inc ∈ get_included_list cfg req self
           ∧ Py.first_piece "." inc ≠ INCLUDE_ALL cfg
           ∧ Py.first_piece "." inc ∉ Py.od_keys rels) →
   ∃ message, _s_get_related cfg ctx self = Raise (GenericError message 400))
  ∧ ((∀ inc, inc ∈ get_included_list cfg req self →
             Py.first_piece "." inc = INCLUDE_ALL cfg
             ∨ Py.first_piece "." inc ∈ Py.od_keys rels) →
     ∃ relationships,
       _s_get_related cfg ctx self = Ok relationships
       ∧ Py.od_keys relationships = Py.od_keys rels
       ∧ ∀ rel_name relationship,
           Py.od_get rels rel_name = Some relationship →
           ∃ rel_data data,
             Py.od_get relationships rel_name = Some rel_data
             ∧ Py.od_get rel_data "links"
               = Some (Links [("self", urljoin cfg (_s_url self) rel_name)])
             ∧ Py.od_get rel_data "data" = Some (Data data)
             ∧ linkage_fits (rel_direction relationship) data).
Proof.
  intros Hreq Hrels. unfold _s_get_related. rewrite Hreq, Hrels.
  set (included_list_ := get_included_list cfg req self).
  set (included_rels := remove_dups (Py.first_piece "." <$> included_list_)).
  destruct (check_included_rels_spec cfg (inst_class self) rels included_rels Hrels)
    as [Hbad Hgood].
  split.
  - intros (inc & Hinc & Hne & Hout).
    destruct Hbad as [message Hm].
    + exists (Py.first_piece "." inc). split.
      * apply elem_of_remove_dups. by apply list_elem_of_fmap_2.
      * by intros [?|?].
    + exists message. by rewrite Hm.
  - intros Hall. rewrite Hgood.
    2:{ intros n (inc & -> & Hinc)%elem_of_remove_dups%list_elem_of_fmap.
        by apply Hall. }
    simpl. eexists. split; [done|].
    destruct (_s_relationships_keyed _ _ Hrels) as [Hnd Hkey].
    rewrite (foldl_od_set_map rel_key
               (relationship_object cfg req self included_list_ included_rels)
               rels []) by done.
    simpl. split; [apply od_keys_prod_map|].
    intros rel_name relationship Hget. rewrite od_get_prod_map, Hget. simpl.
    destruct (relationship_object_members cfg req self included_list_ included_rels
                relationship) as (data & Hlinks & Hdata & Hfits).
    exists (relationship_object cfg req self included_list_ included_rels relationship),
      data.
    rewrite (Hkey _ _ (od_get_elem _ _ _ Hget)). done.
Qed.

(** C5: when [to_dict] and [_s_get_related] return, [_s_jsonapi_encode]
    returns a dictionary whose keys are exactly [attributes], [id],
    [links], [relationships] and [type]; [attributes] is the result of
    [to_dict], [links] holds the [self] link, and [id] is the jsonapi
    id, the [str] of what the id type builds for the instance. *)
Theorem _s_jsonapi_encode_members cfg ctx self json_encoder attributes relationships :
  current_app ctx = Some json_encoder →
  to_dict ctx self = Ok attributes →
  _s_get_related cfg ctx self = Ok relationships →
  ∃ data,
    _s_jsonapi_encode cfg ctx self = Ok data
    ∧ NoDup (Py.od_keys data)
    ∧ (∀ k, k ∈ Py.od_keys data
            ↔ k ∈ ["attributes"; "id"; "links"; "relationships"; "type"])
    ∧ Py.od_get data "attributes" = Some (EAttributes attributes)
    ∧ Py.od_get data "links" = Some (ELinks [("self", _s_url self)])
    ∧ Py.od_get data "id" = Some (EStr (jsonapi_id cfg self))
    ∧ jsonapi_id cfg self = str cfg (id_type_get_id self)
    ∧ Py.od_get data "type" = Some (EStr (class_name (inst_class self)))
    ∧ Py.od_get data "relationships" = Some (ERelationships relationships).
Proof.
  intros Happ Hattrs Hrel. unfold _s_jsonapi_encode. rewrite Happ, Hattrs. simpl.
  rewrite Hrel. simpl. eexists. split; [done|]. split; [|split].
  - unfold Py.od_keys. simpl. repeat (apply NoDup_cons; split; [set_solver|]).
    apply NoDup_nil_2.
  - intros k. unfold Py.od_keys. simpl. set_solver.
  - done.
Qed.

End related.

(** ** [_s_get_related] for a class that sets [supports_includes = False] *)
Section related_without_includes.
Import SAFRSBase.
Implicit Types (cfg : config) (ctx : context) (self : instance) (cls : class).

Lemma check_perm_relationships_off cls name rels :
  supports_includes cls = false → check_perm_relationships cls name rels = None.
Proof.
  intros Hoff. induction rels as [|rel rels IH]; simpl; [done|].
  by rewrite Hoff.
Qed.

Lemma check_perm_columns_no_match cls name permission columns :
  (∀ column, column ∈ columns →
     ∃ attr_name, colname_to_attrname cls (col_name column) = Ok attr_name
                  ∧ attr_name ≠ name) →
  check_perm_columns cls name permission columns = Ok None.
Proof.
  induction columns as [|column columns IH]; intros Hcols; simpl; [done|].
  destruct (Hcols column) as (attr_name & -> & Hne); [left|]. simpl.
  destruct (String.eqb_spec attr_name name) as [|_]; [done|]. simpl.
  apply IH. intros c Hc. apply Hcols. by right.
Qed.

(** A name that is neither hidden, nor carried by a column, nor a
    [jsonapi_attr] of the class is an invalid property when the
    relationships are passed over. *)
Lemma _s_check_perm_invalid cls name permission :
  supports_includes cls = false →
  Py.startswith name "_" = false →
  name ∉ exclude_attrs cls →
  (∀ column, column ∈ mapper_columns cls →
     ∃ attr_name, colname_to_attrname cls (col_name column) = Ok attr_name
                  ∧ attr_name ≠ name) →
  from_option is_jsonapi_attr false (class_dict_get cls name) = false →
  _s_check_perm cls name permission = Raise (ValidationError ("Invalid property " +:+ name)).
Proof.
  intros Hoff Hu Hex Hcols Hja. unfold _s_check_perm. rewrite Hu.
  apply contains_false in Hex. rewrite Hex.
  rewrite (check_perm_relationships_off _ _ _ Hoff).
  rewrite (check_perm_columns_no_match _ _ _ _ Hcols). simpl. by rewrite Hja.
Qed.

Lemma check_included_rels_raises cfg cls e included_rels :
  _s_relationships cls = Raise e →
  check_included_rels cfg cls included_rels = Ok ()
  ∨ check_included_rels cfg cls included_rels = Raise e.
Proof.
  intros Hrels. unfold check_included_rels.
  induction included_rels as [|rel_name l IH]; simpl; [by left|].
  destruct (negb (String.eqb rel_name (INCLUDE_ALL cfg))); simpl.
  - rewrite Hrels. by right.
  - done.
Qed.

(** When evaluating [_s_relationships] raises, so does [_s_get_related],
    whatever is to be included. *)
Lemma _s_get_related_raises cfg ctx req self e :
  ctx_request ctx = Some req →
  _s_relationships (inst_class self) = Raise e →
  _s_get_related cfg ctx self = Raise e.
Proof.
  intros Hreq Hrels. unfold _s_get_related. rewrite Hreq.
  destruct (check_included_rels_raises cfg (inst_class self) e
              (remove_dups (Py.first_piece "." <$> get_included_list cfg req self))
              Hrels) as [-> | ->]; simpl; [|done].
  by rewrite Hrels.
Qed.

(** C3, where the code departs from it: for a class that sets
    [supports_includes = False], [_s_check_perm] passes over every
    relationship (lines 397-399) and ends in the [ValidationError] of line
    424 for the name of its first relationship, unless the name is hidden
    or is also a column or a [jsonapi_attr]; evaluating
    [_s_relationships] raises it, and so does [_s_get_related], for every
    include parameter and for none: neither the [GenericError] with
    status 400 nor the dictionary of relationships comes back. *)
Theorem _s_get_related_supports_includes_off cfg ctx req self rel rest :
  ctx_request ctx = Some req →
  supports_includes (inst_class self) = false →
  mapper_relationships (inst_class self) = rel :: rest →
  Py.startswith (rel_key rel) "_" = false →
  rel_key rel ∉ exclude_attrs (inst_class self) →
  (∀ column, column ∈ mapper_columns (inst_class self) →
     ∃ attr_name,
       colname_to_attrname (inst_class self) (col_name column) = Ok attr_name
       ∧ attr_name ≠ rel_key rel) →
  from_option is_jsonapi_attr false (class_dict_get (inst_class self) (rel_key rel))
  = false →
  _s_get_related cfg ctx self
  = Raise (ValidationError ("Invalid property " +:+ rel_key rel)).
Proof.
  intros Hreq Hoff Hrels Hu Hex Hcols Hja.
  apply (_s_get_related_raises cfg ctx req); [done|].
  unfold _s_relationships. rewrite Hrels. simpl.
  by rewrite (_s_check_perm_invalid _ _ "r" Hoff Hu Hex Hcols Hja).
Qed.

End related_without_includes.

(** ** [http_method_decorator] *)
Section method_wrapper.
Import Api.
Context {session R : Type}.
Variable commit : session → session * option exception.
Variable rollback : session → session.
Variable logging_disabled : bool.
Variable fun_ : session → session * (R + exception).

Abbreviation wrapper := (http_method_decorator commit rollback logging_disabled fun_).

(** The session is committed when the handler returns. *)
Lemma wrapper_commits s s1 s2 result :
  fun_ s = (s1, inl result) → commit s1 = (s2, None) →
  wrapper s = (s2, Returns result).
Proof. intros Hf Hc. unfold http_method_decorator. by rewrite Hf, Hc. Qed.

(** A SAFRS error: rollback, and abort with its status code. *)
Lemma wrapper_safrs_error s s1 exc status_code message :
  fun_ s = (s1, inr exc) → exc_class exc = SafrsError →
  exc_status_code exc = Some status_code → exc_message exc = Some message →
  wrapper s = (rollback s1, Aborts status_code message).
Proof.
  intros Hf Hc Hs Hm. unfold http_method_decorator, handle_exception.
  by rewrite Hf, Hc, Hs, Hm.
Qed.

(** The framework's [NotFound]: rollback, and abort with 404. *)
Lemma wrapper_not_found s s1 exc :
  fun_ s = (s1, inr exc) → exc_class exc = WerkzeugNotFound →
  wrapper s = (rollback s1, Aborts 404 "Not Found").
Proof.
  intros Hf Hc. unfold http_method_decorator, handle_exception. by rewrite Hf, Hc.
Qed.

(** Another exception that has a [message] attribute: rollback, and abort
    with its status code, 500 if it has none. *)
Lemma wrapper_other_with_message s s1 exc message :
  fun_ s = (s1, inr exc) → exc_class exc = OtherException →
  exc_message exc = Some message →
  wrapper s
  = (rollback s1,
     Aborts (default 500%Z (exc_status_code exc))
       (if logging_disabled then "Logging Disabled" else exc_str exc)).
Proof.
  intros Hf Hc Hm. unfold http_method_decorator, handle_exception.
  by rewrite Hf, Hc, Hm.
Qed.

(** C8, where the code departs from it: an exception that is none of the
    SAFRS errors nor the framework's [NotFound] and has no [message]
    attribute leaves the wrapper as an [AttributeError], raised by
    [exc.message] in line 479; the session is as the handler left it,
    not rolled back, and there is no abort with status 500. *)
Theorem wrapper_other_exception_escapes s s1 exc :
  fun_ s = (s1, inr exc) → exc_class exc = OtherException →
  exc_message exc = None →
  wrapper s = (s1, Raises (AttributeError "message")).
Proof.
  intros Hf Hc Hm. unfold http_method_decorator, handle_exception.
  by rewrite Hf, Hc, Hm.
Qed.

End method_wrapper.

(** * The theorems at the sample objects *)
Section samples.
Import Api SAFRSBase Sample.

Example operation_ids_sample :
  get_operation_ids ∅ ["Get a b"; "Get ab"; "x"; "Getab"]
  = ["Getab_0"; "Getab_1"; "x_0"; "Getab_2"].
Proof. vm_compute. reflexivity. Qed.

Example swagger_paths_sample :
  Py.od_keys <$> swagger_path (add_resources env initial_api expose_User) "/Users/"
  = Some ["get"; "post"]
  ∧ Py.od_keys <$> swagger_path (add_resources env initial_api expose_User)
                     "/Users/{UserId}/"
    = Some ["get"; "patch"; "delete"].
Proof. split; vm_compute; reflexivity. Qed.

Example to_dict_sample :
  to_dict (ctx_with plain_request) ann
  = Ok {[ "name" := VStr "Ann"; "created" := VStr "2020-01-01";
          "photo" := VStr "<object>"; "nick" := VStr "annie" ]}
  ∧ to_dict (ctx_with sparse_request) ann
    = Ok {[ "name" := VStr "Ann"; "secret" := VStr "" ]}
  ∧ to_dict (ctx_strict plain_request) ann
    = Ok {[ "name" := VStr "Ann"; "created" := VStr "2020-01-01";
            "nick" := VStr "annie" ]}.
Proof. repeat split; vm_compute; reflexivity. Qed.

Example _s_get_related_sample :
  _s_get_related cfg (ctx_with (include_request "books,employer.boss")) ann
  = Ok [("books",
         [("links", Links [("self", "http://localhost/Users/1/books")]);
          ("data", Data (DataList [ {| incl_instance := 3; incl_included_list := [] |};
                                    {| incl_instance := 4; incl_included_list := [] |} ]));
          ("meta", Meta [("count", MetaInt 2); ("limit", MetaInt 250)])]);
        ("employer",
         [("links", Links [("self", "http://localhost/Users/1/employer")]);
          ("data", Data (DataIncluded {| incl_instance := 7;
                                         incl_included_list := ["boss"] |}))])]
  ∧ _s_get_related cfg (ctx_with plain_request) ann
    = Ok [("books",
           [("links", Links [("self", "http://localhost/Users/1/books")]);
            ("data", Data (DataList []))]);
          ("employer",
           [("links", Links [("self", "http://localhost/Users/1/employer")]);
            ("data", Data DataNone)])].
Proof. split; vm_compute; reflexivity. Qed.

Example _s_patch_sample :
  inst_attrs
    (_s_patch cfg (ctx_with plain_request) ann
       [("name", VStr "Bob"); ("created", VStr "2021-05-05"); ("secret", VStr "x");
        ("bogus", VInt 3); ("nick", VStr "bobby")]).1
  = {[ "id" := VInt 1; "name" := VStr "Bob"; "secret" := VStr "s3cr3t";
       "created" := VStr "2020-01-01"; "photo" := VObject 0; "nick" := VStr "bobby" ]}.
Proof. vm_compute. reflexivity. Qed.

Lemma wrapper_other_exception_escapes_witness :
  http_method_decorator db_commit db_rollback false failing_post empty_session
  = ({| committed := []; pending := ["row"] |}, Raises (Api.AttributeError "message")).
Proof.
  apply (wrapper_other_exception_escapes db_commit db_rollback false failing_post
           empty_session _ key_error); reflexivity.
Defined.

Lemma add_resource_disables_methods_witness :
  attrs (add_resource env initial_api User_API ["/Users/"] no_kwargs).1.2 !! "put"
  = Some MethodNotAllowed.
Proof.
  refine (proj1 (proj2 (add_resource_disables_methods env initial_api User_API
                          ["/Users/"] no_kwargs
                          (add_resource env initial_api User_API ["/Users/"] no_kwargs).1.1
                          (add_resource env initial_api User_API ["/Users/"] no_kwargs).1.2
                          _)) "PUT" _ _).
  - vm_compute. reflexivity.
  - vm_compute. repeat constructor.
  - vm_compute. intros H. repeat (apply elem_of_cons in H as [H|H]; [discriminate|]).
    by apply elem_of_nil in H.
Defined.

Lemma no_post_on_instance_paths_witness :
  ∃ path_item,
    swagger_path (add_resources env initial_api expose_User) "/Users/{UserId}/"
    = Some path_item
    ∧ Py.od_keys path_item = ["get"; "patch"; "delete"]
    ∧ Py.od_get path_item "post" = None.
Proof.
  eexists. split; [vm_compute; reflexivity|]. split; [reflexivity|].
  apply (no_post_on_instance_paths env expose_User "/Users/{UserId}/");
    vm_compute; reflexivity.
Defined.

(** C1 as stated fails: without a sparse fieldset, an attribute whose
    value the application's encoder cannot encode is missing from the
    dictionary, though it is one of the class's jsonapi attributes. *)
Lemma to_dict_not_all_attributes :
  requested_fields (ctx_strict plain_request) (class_name (inst_class ann)) = None
  ∧ ¬ (∀ d class_attrs,
         to_dict (ctx_strict plain_request) ann = Ok d →
         class_jsonapi_attrs User true = Ok class_attrs →
         ∀ name, name ∈ dom d ↔ name ∈ Py.od_keys class_attrs).
Proof.
  split; [reflexivity|]. intros H.
  destruct (to_dict (ctx_strict plain_request) ann) as [d|e] eqn:Hd;
    [|vm_compute in Hd; discriminate].
  destruct (class_jsonapi_attrs User true) as [class_attrs|e] eqn:Hattrs;
    [|vm_compute in Hattrs; discriminate].
  specialize (H d class_attrs eq_refl eq_refl "photo").
  assert ("photo" ∈ Py.od_keys class_attrs) as Hin.
  { vm_compute in Hattrs. injection Hattrs as <-. vm_compute. repeat constructor. }
  apply H in Hin. apply elem_of_dom in Hin as [v Hv].
  vm_compute in Hd. injection Hd as <-. vm_compute in Hv. discriminate.
Qed.

Lemma to_dict_sparse_fieldsets_witness :
  ∃ d, to_dict (ctx_with sparse_request) ann = Ok d
       ∧ ∀ name, name ∈ dom d → name ∈ ["name"; "secret"].
Proof.
  eexists. split; [vm_compute; reflexivity|].
  refine (proj1 (to_dict_sparse_fieldsets (ctx_with sparse_request) ann _ _)
            ["name"; "secret"] _); vm_compute; reflexivity.
Defined.

(** C2 as stated fails: the client asks for the excluded attribute
    [secret], and [secret] is a key of the dictionary. *)
Lemma to_dict_has_hidden_key :
  "secret" ∈ exclude_attrs (inst_class ann)
  ∧ ¬ (∀ d, to_dict (ctx_with sparse_request) ann = Ok d → "secret" ∉ dom d).
Proof.
  split; [left|]. intros H.
  destruct (to_dict (ctx_with sparse_request) ann) as [d|e] eqn:Hd;
    [|vm_compute in Hd; discriminate].
  apply (H d eq_refl). apply elem_of_dom. exists (VStr "").
  vm_compute in Hd. injection Hd as <-. vm_compute. reflexivity.
Qed.

Lemma hidden_attributes_not_serialized_witness :
  _s_check_perm User "secret" "r" = Ok false
  ∧ ∃ d, to_dict (ctx_with sparse_request) ann = Ok d
         ∧ d !! "secret" = Some (VStr "").
Proof.
  assert ("secret" ∈ exclude_attrs (inst_class ann)) as Hex by left.
  split.
  - exact (proj1 (hidden_attributes_not_serialized (ctx_with sparse_request) ann
                    "secret" (or_intror Hex)) "r").
  - eexists. split; [vm_compute; reflexivity|]. vm_compute. reflexivity.
Defined.

Lemma _s_get_related_includes_witness :
  ∃ message,
    _s_get_related cfg (ctx_with (include_request "books,pets")) ann
    = Raise (GenericError message 400).
Proof.
  refine (proj1 (_s_get_related_includes cfg (ctx_with (include_request "books,pets"))
                   (include_request "books,pets") ann _ eq_refl _) _).
  - vm_compute. reflexivity.
  - exists "pets". split; [vm_compute; repeat constructor|].
    split; [vm_compute; discriminate|].
    vm_compute. intros H.
    repeat (apply elem_of_cons in H as [H|H]; [discriminate|]).
    by apply elem_of_nil in H.
Defined.

Lemma _s_jsonapi_encode_members_witness :
  ∃ data,
    _s_jsonapi_encode cfg (ctx_with plain_request) ann = Ok data
    ∧ Py.od_get data "id" = Some (EStr "1").
Proof.
  edestruct (_s_jsonapi_encode_members cfg (ctx_with plain_request) ann)
    as (data & Hdata & _ & _ & _ & _ & Hid & _).
  - reflexivity.
  - vm_compute. reflexivity.
  - vm_compute. reflexivity.
  - exists data. split; [done|]. rewrite Hid. reflexivity.
Defined.

Lemma User_setters_local : setters_local User.
Proof.
  intros name m setter Hget Hfset d v n Hne.
  apply od_get_elem in Hget. unfold User, class_dict in Hget.
  repeat (apply elem_of_cons in Hget as [Hget|Hget]; [by simplify_eq/=|]).
  apply elem_of_cons in Hget as [Hget|Hget]; [|by apply elem_of_nil in Hget].
  simplify_eq/=. by rewrite lookup_insert_ne.
Defined.

Lemma _s_patch_writes_declared_writable_witness :
  _s_patch cfg (ctx_with plain_request) ann [("bogus", VInt 3); ("Id", VInt 2)]
  = (ann, None).
Proof.
  refine (proj2 (proj2 (_s_patch_writes_declared_writable cfg (ctx_with plain_request)
                          ann [("bogus", VInt 3); ("Id", VInt 2)] _
                          User_setters_local _)) _).
  - vm_compute. reflexivity.
  - intros attr_name Hin Hdecl. vm_compute in Hin, Hdecl.
    repeat (apply elem_of_cons in Hin as [->|Hin];
            [repeat (apply elem_of_cons in Hdecl as [Hdecl|Hdecl]; [discriminate|]);
             by apply elem_of_nil in Hdecl|]).
    by apply elem_of_nil in Hin.
Defined.

Lemma _s_post_sanitizes_witness :
  ∃ class_attrs,
    class_jsonapi_attrs User true = Ok class_attrs
    ∧ sanitize User class_attrs (VInt 9)
        [("id", VInt 5); ("name", VStr "Bob"); ("bogus", VNone)]
      = [("name", VStr "Bob")]
    ∧ _s_post (ctx_with plain_request) instantiate User (VInt 9)
        [("id", VInt 5); ("name", VStr "Bob"); ("bogus", VNone)]
      = instantiate User [("name", VStr "Bob")].
Proof.
  destruct (class_jsonapi_attrs User true) as [class_attrs|e] eqn:Hattrs;
    [|vm_compute in Hattrs; discriminate].
  exists class_attrs. split; [done|].
  pose proof (proj1 (_s_post_sanitizes (ctx_with plain_request) instantiate User (VInt 9)
                       [("id", VInt 5); ("name", VStr "Bob"); ("bogus", VNone)]
                       class_attrs Hattrs)) as Hpost.
  assert (sanitize User class_attrs (VInt 9)
            [("id", VInt 5); ("name", VStr "Bob"); ("bogus", VNone)]
          = [("name", VStr "Bob")]) as Hs.
  { vm_compute in Hattrs. injection Hattrs as <-. vm_compute. reflexivity. }
  split; [done|]. by rewrite Hpost, Hs.
Defined.

Example _s_get_related_Pet_sample :
  _s_get_related cfg (ctx_with plain_request) rex
  = Raise (ValidationError "Invalid property owner")
  ∧ _s_get_related cfg (ctx_with (include_request "toys")) rex
    = Raise (ValidationError "Invalid property owner")
  ∧ _s_get_related cfg (ctx_with (include_request "owner")) rex
    = Raise (ValidationError "Invalid property owner").
Proof. repeat split; vm_compute; reflexivity. Qed.

Lemma _s_get_related_supports_includes_off_witness :
  _s_get_related cfg (ctx_with plain_request) rex
  = Raise (ValidationError "Invalid property owner").
Proof.
  refine (_s_get_related_supports_includes_off cfg (ctx_with plain_request) plain_request
            rex _ _ eq_refl eq_refl eq_refl eq_refl _ _ eq_refl).
  - intros Hin. vm_compute in Hin. by apply elem_of_nil in Hin.
  - intros column Hin. unfold rex, Pet in Hin. simpl in Hin.
    apply elem_of_cons in Hin as [->|Hin];
      [exists "id"; split; [vm_compute; reflexivity|discriminate]|].
    apply elem_of_cons in Hin as [->|Hin];
      [exists "name"; split; [vm_compute; reflexivity|discriminate]|].
    by apply elem_of_nil in Hin.
Defined.

End samples.

(** * Further properties of [_api.py] *)

(** ** [Api.get_resource_methods]: what it can return *)
Section resource_methods_sound.
Import Api.



End resource_methods_sound.

(** ** [Api.add_resource]: what a call registers *)
Section add_resource_facts.
Import Api.
Variable env : environment.
Variable r : resource.





End add_resource_facts.

(** ** The parameters of a documented method *)
Section method_parameters_facts.
Import Api.





End method_parameters_facts.

(** ** What the outcomes of [method_wrapper] tell *)
Section wrapper_outcomes.
Import Api.
Context {session R : Type}.
Variable commit : session → session * option exception.
Variable rollback : session → session.
Variable logging_disabled : bool.
Variable fun_ : session → session * (R + exception).



End wrapper_outcomes.

(** * Further properties of [base.py] *)

(** ** [colname_to_attrname] and its lookup table *)
Section colname_facts.
Import SAFRSBase.




End colname_facts.

(** ** The class-level [_s_jsonapi_attrs] *)
Section class_attrs_facts.
Import SAFRSBase.




End class_attrs_facts.

(** ** Relationships that are not included *)
Section not_included.
Import SAFRSBase.


Lemma check_included_rels_unit cfg cls l u :
  check_included_rels cfg cls l = Ok u → u = ().
Proof. by destruct u. Qed.



End not_included.

(** ** The setter of [Type] *)
Section Type_setter_facts.
Import SAFRSBase.


End Type_setter_facts.

(** ** The further properties at the sample objects *)
Section more_samples.
Import Api SAFRSBase Sample.






End more_samples.
